(** * The longest-symbol tests of the kernel

    A model of lib/longest_symbol.h, lib/longest_symbol_kunit.c, the
    header-based variant of that suite (two files) and
    lib/test_longest_symbol.c.

    The identifiers these files are about are built by the C preprocessor,
    so the first part is a model of macro replacement (C11 6.10.3) on
    preprocessing tokens; the macro tables are the [#define] lines of the
    sources.  The second part models the run-time side: kprobes, kallsyms
    and the KUnit and kselftest bookkeeping, as a state and exception
    monad over an explicit kernel environment. *)

From Stdlib Require Import String Ascii List ZArith Lia Bool.
Import ListNotations.
Open Scope string_scope.
Open Scope list_scope.

(** ** Preprocessing tokens and macro replacement *)

Module Cpp.

(** Preprocessing tokens, as far as the sources need them.  Keywords such
    as [int] and [void] are identifiers at this stage. *)
Inductive token : Type :=
| Id (s : string)        (* identifier *)
| Str (s : string)       (* string literal, the text between the quotes *)
| LParen
| RParen
| Comma
| Hash                   (* # *)
| HashHash.              (* ## *)

(** [#define m_name m_body] when [m_params] is [None],
    [#define m_name(params) m_body] otherwise; [m_variadic] marks a last
    parameter written [x...], which takes all the remaining arguments. *)
Record macro : Type := Macro {
  m_name : string;
  m_params : option (list string);
  m_variadic : bool;
  m_body : list token
}.

(** A token together with its hide set: the macros whose replacement
    produced it, which are not replaced again in it (6.10.3.4p2). *)
Definition htok : Type := token * list string.

Definition mem (x : string) (l : list string) : bool :=
  existsb (String.eqb x) l.

Definition inter (a b : list string) : list string :=
  filter (fun x => mem x b) a.

Definition hsadd (hs : list string) (ts : list htok) : list htok :=
  map (fun t => (fst t, hs ++ snd t)) ts.

Fixpoint lookup (tbl : list macro) (x : string) : option macro :=
  match tbl with
  | [] => None
  | m :: tbl' => if String.eqb (m_name m) x then Some m else lookup tbl' x
  end.

Definition dquote : string := String (ascii_of_nat 34) EmptyString.
Definition backslash : string := String (ascii_of_nat 92) EmptyString.

Fixpoint escape (s : string) : string :=
  match s with
  | EmptyString => EmptyString
  | String c s' =>
      if (Nat.eqb (nat_of_ascii c) 34 || Nat.eqb (nat_of_ascii c) 92)%bool
      then (backslash ++ String c (escape s'))%string
      else String c (escape s')
  end.

Definition spelling (t : token) : string :=
  match t with
  | Id s => s
  | Str s => (dquote ++ s ++ dquote)%string
  | LParen => "("
  | RParen => ")"
  | Comma => ","
  | Hash => "#"
  | HashHash => "##"
  end.

(** The [#] operator (6.10.3.2).  White space between the tokens of an
    argument is not represented, so none is put between their spellings;
    the arguments the sources stringify are single identifiers. *)
Definition stringize (arg : list htok) : htok :=
  (Str (String.concat "" (map (fun t =>
          match fst t with
          | Str s => escape (spelling (Str s))
          | t' => spelling t'
          end) arg)), []).

(** The [##] operator on two tokens (6.10.3.3).  Two identifiers give the
    identifier of the joined spelling; the other combinations would have
    to be lexed again and are left out. *)
Definition paste (l r : token) : option token :=
  match l, r with
  | Id a, Id b => Some (Id (a ++ b)%string)
  | _, _ => None
  end.

(** Paste the last token of [ls] with the first of [rs]. *)
Fixpoint glue (ls rs : list htok) : option (list htok) :=
  match ls with
  | [] => Some rs
  | [(l, hs)] =>
      match rs with
      | [] => Some [(l, hs)]
      | (r, hs') :: rs' =>
          match paste l r with
          | Some t => Some ((t, inter hs hs') :: rs')
          | None => None
          end
      end
  | l :: ls' =>
      match glue ls' rs with
      | Some ts => Some (l :: ts)
      | None => None
      end
  end.

(** The arguments of a macro call, read after its opening parenthesis:
    the arguments, the hide set of the closing parenthesis and the tokens
    after it.  [depth] counts the parentheses open inside the call. *)
Fixpoint gather (depth : nat) (cur : list htok) (acc : list (list htok))
    (ts : list htok) : option (list (list htok) * list string * list htok) :=
  match ts with
  | [] => None
  | (RParen, hs) :: ts' =>
      match depth with
      | O => Some (rev (rev cur :: acc), hs, ts')
      | S d => gather d ((RParen, hs) :: cur) acc ts'
      end
  | (LParen, hs) :: ts' => gather (S depth) ((LParen, hs) :: cur) acc ts'
  | (Comma, hs) :: ts' =>
      match depth with
      | O => gather O [] (rev cur :: acc) ts'
      | S _ => gather depth ((Comma, hs) :: cur) acc ts'
      end
  | t :: ts' => gather depth (t :: cur) acc ts'
  end.

Fixpoint join_commas (args : list (list htok)) : list htok :=
  match args with
  | [] => []
  | [a] => a
  | a :: args' => a ++ (Comma, []) :: join_commas args'
  end.

(** Parameters bound to arguments.  A call [f()] of a macro without
    parameters has no argument; a variadic last parameter takes the
    remaining arguments with their commas. *)
Fixpoint bind_args (fp : list string) (variadic : bool)
    (args : list (list htok)) : option (list (string * list htok)) :=
  match fp, args with
  | [], [] => Some []
  | [], [[]] => Some []
  | [p], _ :: _ :: _ =>
      if variadic then Some [(p, join_commas args)] else None
  | p :: fp', a :: args' =>
      match fp', args' with
      | _ :: _, [] => None
      | _, _ =>
          match bind_args fp' variadic args' with
          | Some ap => Some ((p, a) :: ap)
          | None => None
          end
      end
  | _, _ => None
  end.

Fixpoint select (p : string) (ap : list (string * list htok))
    : option (list htok) :=
  match ap with
  | [] => None
  | (q, a) :: ap' => if String.eqb q p then Some a else select p ap'
  end.

Definition param (ap : list (string * list htok)) (t : token)
    : option (list htok) :=
  match t with
  | Id x => select x ap
  | _ => None
  end.

Section Subst.

(** Full macro replacement of an argument, supplied by [expand] below. *)
Variable ex : list htok -> option (list htok).
Variable ap : list (string * list htok).

(** The replacement list [body] with the arguments put in (6.10.3.1 to
    6.10.3.3): an argument that is an operand of [#] or [##] goes in as
    written, any other one completely macro-replaced; [os] is the output
    so far. *)
Fixpoint subst (body : list token) (os : list htok)
    : option (list htok) :=
  match body with
  | [] => Some os
  | Hash :: body1 =>
      match body1 with
      | t :: body2 =>
          match param ap t with
          | Some a => subst body2 (os ++ [stringize a])
          | None => subst body1 (os ++ [(Hash, [])])
          end
      | [] => Some (os ++ [(Hash, [])])
      end
  | HashHash :: body1 =>
      match body1 with
      | t :: body2 =>
          match param ap t with
          | Some [] => subst body2 os
          | Some a =>
              match glue os a with
              | Some os' => subst body2 os'
              | None => None
              end
          | None =>
              match glue os [(t, [])] with
              | Some os' => subst body2 os'
              | None => None
              end
          end
      | [] => None
      end
  | t :: body1 =>
      match param ap t with
      | Some a =>
          match body1 with
          | HashHash :: body2 =>
              match a with
              | [] =>
                  match body2 with
                  | t' :: body3 =>
                      match param ap t' with
                      | Some a' => subst body3 (os ++ a')
                      | None => subst body2 os
                      end
                  | [] => None
                  end
              | _ :: _ => subst body1 (os ++ a)
              end
          | _ =>
              match ex a with
              | Some a' => subst body1 (os ++ a')
              | None => None
              end
          end
      | None => subst body1 (os ++ [(t, [])])
      end
  end.

End Subst.

Section Expand.

Variable tbl : list macro.

(** Rescanning and further replacement (6.10.3.4), one token or one macro
    call for each unit of [fuel]. *)
Fixpoint expand (fuel : nat) (ts : list htok) : option (list htok) :=
  match fuel with
  | O => None
  | S fuel' =>
      let keep t ts' :=
        match expand fuel' ts' with
        | Some r => Some (t :: r)
        | None => None
        end in
      match ts with
      | [] => Some []
      | (Id x, hs) :: ts' =>
          if mem x hs then keep (Id x, hs) ts'
          else
            match lookup tbl x with
            | None => keep (Id x, hs) ts'
            | Some m =>
                match m_params m with
                | None =>
                    match subst (expand fuel') [] (m_body m) [] with
                    | Some r => expand fuel' (hsadd (x :: hs) r ++ ts')
                    | None => None
                    end
                | Some fp =>
                    match ts' with
                    | (LParen, _) :: ts2 =>
                        match gather O [] [] ts2 with
                        | Some (args, hs', rest) =>
                            match bind_args fp (m_variadic m) args with
                            | Some ap =>
                                match subst (expand fuel') ap (m_body m) [] with
                                | Some r =>
                                    expand fuel'
                                      (hsadd (x :: inter hs hs') r ++ rest)
                                | None => None
                                end
                            | None => None
                            end
                        | None => None
                        end
                    | _ => keep (Id x, hs) ts'
                    end
                end
            end
      | t :: ts' => keep t ts'
      end
  end.

Definition fuel0 : nat := 256.

(** Macro replacement of a line of source tokens. *)
Definition preprocess (ts : list token) : option (list token) :=
  match expand fuel0 (map (fun t => (t, [])) ts) with
  | Some r => Some (map fst r)
  | None => None
  end.

End Expand.

End Cpp.

(** ** The macro tables of the sources *)

Module Macros.
Import Cpp.

(** Modelled from the spec: include/linux/stringify.h is not under src/.
    [__stringify(x)] is the string literal made of [x] after macro
    replacement (the "stringified" name); the kernel
    defines it in two levels so that the argument is replaced first:
    [#define __stringify_1(x...) #x] and
    [#define __stringify(x...) __stringify_1(x)]. *)
Definition linux_stringify_h : list macro :=
  [ Macro "__stringify_1" (Some ["x"]) true [Hash; Id "x"];
    Macro "__stringify" (Some ["x"]) true
      [Id "__stringify_1"; LParen; Id "x"; RParen] ].

(** Modelled from the spec: include/linux/compiler_types.h is not under
    src/.  [__PASTE(a, b)] joins [a] and [b] after macro replacement
    (the name with one character appended):
    [#define ___PASTE(a,b) a##b] and [#define __PASTE(a,b) ___PASTE(a,b)]. *)
Definition linux_compiler_types_h : list macro :=
  [ Macro "___PASTE" (Some ["a"; "b"]) false [Id "a"; HashHash; Id "b"];
    Macro "__PASTE" (Some ["a"; "b"]) false
      [Id "___PASTE"; LParen; Id "a"; Comma; Id "b"; RParen] ].

(** The chain [DI] to [DDDDDI], the same five lines in
    lib/longest_symbol.h (4-8) and lib/longest_symbol_kunit.c (15-19). *)
Definition chain : list macro :=
  [ Macro "DI" (Some ["name"]) false
      [Id "s"; HashHash; Id "name"; HashHash; Id "name"];
    Macro "DDI" (Some ["name"]) false
      [Id "DI"; LParen; Id "n"; HashHash; Id "name"; HashHash; Id "name";
       RParen];
    Macro "DDDI" (Some ["name"]) false
      [Id "DDI"; LParen; Id "n"; HashHash; Id "name"; HashHash; Id "name";
       RParen];
    Macro "DDDDI" (Some ["name"]) false
      [Id "DDDI"; LParen; Id "n"; HashHash; Id "name"; HashHash; Id "name";
       RParen];
    Macro "DDDDDI" (Some ["name"]) false
      [Id "DDDDI"; LParen; Id "n"; HashHash; Id "name"; HashHash; Id "name";
       RParen] ].

Definition seed : string := "g1h2i3j4k5l6m7n".

(** lib/longest_symbol.h, as seen by the files that include it. *)
Definition longest_symbol_h : list macro :=
  linux_stringify_h ++ linux_compiler_types_h ++ chain ++
  [ Macro "PLUS1" (Some ["name"]) false [Id "name"; HashHash; Id "e"];
    Macro "LONGEST_SYM_NAME" None false
      [Id "DDDDDI"; LParen; Id seed; RParen];
    Macro "LONGEST_SYM_PLUS1" None false
      [Id "PLUS1"; LParen; Id "LONGEST_SYM_NAME"; RParen] ].

(** lib/longest_symbol_kunit.c, lines 15-27. *)
Definition longest_symbol_kunit_c : list macro :=
  linux_stringify_h ++ linux_compiler_types_h ++ chain ++
  [ Macro "PLUS1" (Some ["name"]) false
      [Id "__PASTE"; LParen; Id "name"; Comma; Id "e"; RParen];
    Macro "LONGEST_SYM_NAME" None false
      [Id "DDDDDI"; LParen; Id seed; RParen];
    Macro "LONGEST_SYM_NAME_PLUS1" None false
      [Id "PLUS1"; LParen; Id "LONGEST_SYM_NAME"; RParen] ].

(** lib/test_longest_symbol.c, line 13. *)
Definition test_longest_symbol_c : list macro :=
  linux_stringify_h ++
  [ Macro "LONGEST_SYMBOL" None false
      [Id "start_of_the_longest_symbol_possible__123456789_123456789_123456789_123456789_123456789_123__end_of_the_longest_symbol_possible"] ].

(** The identifier a line of tokens is replaced by, the empty string when
    the line does not come out as one identifier. *)
Definition identifier (tbl : list macro) (ts : list token) : string :=
  match preprocess tbl ts with
  | Some [Id s] => s
  | _ => ""
  end.

(** The text of [__stringify(ts)], the empty string when the call does
    not come out as one string literal. *)
Definition stringify (tbl : list macro) (ts : list token) : string :=
  match preprocess tbl ([Id "__stringify"; LParen] ++ ts ++ [RParen]) with
  | Some [Str s] => s
  | _ => ""
  end.

(** [sizeof] of a string literal counts its terminating NUL; [strlen]
    does not. *)
Definition sizeof_literal (s : string) : Z := Z.of_nat (String.length s) + 1.
Definition strlen (s : string) : Z := Z.of_nat (String.length s).

End Macros.

(** ** The chain as functions on spellings

    What each macro of the chain makes of an identifier, read off its
    [#define]: [##] joins spellings, and the argument, an operand of
    [##], goes in as it is written. *)

Module Chain.

Definition DI (name : string) : string := ("s" ++ name ++ name)%string.
Definition DDI (name : string) : string := DI ("n" ++ name ++ name)%string.
Definition DDDI (name : string) : string := DDI ("n" ++ name ++ name)%string.
Definition DDDDI (name : string) : string :=
  DDDI ("n" ++ name ++ name)%string.
Definition DDDDDI (name : string) : string :=
  DDDDI ("n" ++ name ++ name)%string.

(** The call [m(name)] as a line of tokens. *)
Definition call (m name : string) : list Cpp.token :=
  [Cpp.Id m; Cpp.LParen; Cpp.Id name; Cpp.RParen].

End Chain.

(** ** The kernel as the tests see it *)

Module Kernel.

(** What a test run can change: the kprobes, the kernel log, the KUnit
    failures of the running case, the names given to kallsyms, and the
    counters of [KSTM_MODULE_GLOBALS()]. *)
Record world : Type := World {
  kprobe_calls : nat;        (* calls of register_kprobe so far *)
  live_kprobes : nat;        (* kprobes registered and not unregistered *)
  log : list (string * string);   (* (printing function, message) *)
  failures : list string;    (* KUnit failures recorded *)
  lookups : list string;     (* names looked up through kallsyms *)
  total_tests : nat;
  failed_tests : nat
}.

Definition boot : world := World 0 0 [] [] [] 0 0.

(** How a function ends: it returns, the KUnit case is aborted by a
    failed assertion, or a call through a pointer that holds no function
    faults. *)
Inductive outcome (A : Type) : Type :=
| Done (a : A)
| Aborted
| Faulted.
Arguments Done {A} a.
Arguments Aborted {A}.
Arguments Faulted {A}.

Definition M (A : Type) : Type := world -> outcome A * world.

Definition ret {A} (a : A) : M A := fun w => (Done a, w).

Definition bind {A B} (c : M A) (f : A -> M B) : M B :=
  fun w =>
    match c w with
    | (Done a, w') => f a w'
    | (Aborted, w') => (Aborted, w')
    | (Faulted, w') => (Faulted, w')
    end.

Declare Scope kernel_scope.
Delimit Scope kernel_scope with kernel.
Notation "x <- c ;; k" := (bind c (fun x => k))
  (at level 61, c at next level, right associativity) : kernel_scope.
Notation "' p <- c ;; k" := (bind c (fun x => match x with p => k end))
  (at level 61, p pattern, c at next level, right associativity)
  : kernel_scope.
Notation "c ;; k" := (bind c (fun _ => k))
  (at level 61, right associativity) : kernel_scope.
Open Scope kernel_scope.

(** The parts of the kernel the tests call into, none of them under
    src/, as parameters: what the successive calls of [register_kprobe]
    return, the symbol table ([kallsyms_lookup_name], 0 for a name it
    does not have) and the functions of type [int (void)] by address. *)
Record kernel : Type := {
  register_kprobe_ret : nat -> Z;
  kallsyms : string -> Z;
  text : Z -> option (M Z)
}.

Record kprobe : Type := { symbol_name : string; addr : Z }.

(** A message on the kernel log or the KUnit log, kept with the name of
    the function that printed it.  The prefix [pr_fmt] puts before a
    message, [KBUILD_MODNAME], comes from the build and is left out. *)
Definition emit (how msg : string) : M unit :=
  fun w => (Done tt,
            World (kprobe_calls w) (live_kprobes w) (log w ++ [(how, msg)])
                  (failures w) (lookups w) (total_tests w) (failed_tests w)).

Definition pr_info : string -> M unit := emit "pr_info".
Definition pr_warn : string -> M unit := emit "pr_warn".
Definition kunit_warn : string -> M unit := emit "kunit_warn".

Definition record_failure (msg : string) (w : world) : world :=
  World (kprobe_calls w) (live_kprobes w) (log w) (failures w ++ [msg])
        (lookups w) (total_tests w) (failed_tests w).

(** Modelled from the spec: include/kunit/test.h is not under src/.  The
    cases "assert" through these macros and fail by "test assertion
    mismatches": an expectation that does not hold records a failure and
    the case goes on, an assertion that does not hold records a failure
    and aborts the case, [KUNIT_FAIL] always records a failure. *)
Definition KUNIT_EXPECT_EQ (left right : Z) (what : string) : M unit :=
  fun w => if Z.eqb left right then (Done tt, w)
           else (Done tt, record_failure what w).

Definition KUNIT_ASSERT_TRUE (condition : bool) (what : string) : M unit :=
  fun w => if condition then (Done tt, w)
           else (Aborted, record_failure what w).

Definition KUNIT_FAIL (msg : string) : M unit :=
  fun w => (Done tt, record_failure msg w).

Section Calls.

Variable k : kernel.

(** Modelled from the spec: kernel/kprobes.c is not under src/.
    [register_kprobe(&kp)] is the "kprobe-based address lookup": it
    returns a negative value and has done nothing, or it has registered
    the probe and set [kp.addr] to the address of the probed symbol.
    The probe comes back with the return value since the callers pass
    it by address.  The return values are those of the kernel, one call
    after the other, and nothing is assumed of them here; a kernel need
    not grant every sequence (see [retry_refused]). *)
Definition register_kprobe (kp : kprobe) : M (Z * kprobe) :=
  fun w =>
    let r := register_kprobe_ret k (kprobe_calls w) in
    if Z.ltb r 0 then
      (Done (r, kp),
       World (S (kprobe_calls w)) (live_kprobes w) (log w) (failures w)
             (lookups w) (total_tests w) (failed_tests w))
    else
      (Done (r, {| symbol_name := symbol_name kp;
                   addr := kallsyms k (symbol_name kp) |}),
       World (S (kprobe_calls w)) (S (live_kprobes w)) (log w) (failures w)
             (lookups w) (total_tests w) (failed_tests w)).

Definition unregister_kprobe (kp : kprobe) : M unit :=
  fun w => (Done tt,
            World (kprobe_calls w) (Nat.pred (live_kprobes w)) (log w)
                  (failures w) (lookups w) (total_tests w) (failed_tests w)).

(** A call through a pointer of type
    [unsigned long ( * )(const char *name)].  The only function of that
    type the model has is [kallsyms_lookup_name]; a call through any
    other address faults. *)
Definition call_lookup (fp : Z) (name : string) : M Z :=
  fun w =>
    if Z.eqb fp (kallsyms k "kallsyms_lookup_name") then
      (Done (kallsyms k name),
       World (kprobe_calls w) (live_kprobes w) (log w) (failures w)
             (lookups w ++ [name]) (total_tests w) (failed_tests w))
    else (Faulted, w).

(** A call through a pointer of type [int ( * )(void)]. *)
Definition call_int (fp : Z) : M Z :=
  match text k fp with
  | Some f => f
  | None => fun w => (Faulted, w)
  end.

End Calls.

(** The counters of [KSTM_MODULE_GLOBALS()] are [unsigned int]: one
    more than [UINT_MAX] is 0. *)
Definition uint_succ (n : nat) : nat :=
  Z.to_nat ((Z.of_nat n + 1) mod 4294967296)%Z.

(** Modelled from the spec: tools/testing/selftests/kselftest/module.h
    is not under src/.  [KSTM_CHECK_ZERO(x)] counts a test and, when [x]
    is not zero, a failed one (a "check failure"), after
    a warning that names the place; the two counters are incremented as
    [unsigned int]. *)
Definition KSTM_CHECK_ZERO (x : M Z) (place : string) : M unit :=
  fun w =>
    let w1 := World (kprobe_calls w) (live_kprobes w) (log w) (failures w)
                    (lookups w) (uint_succ (total_tests w))
                    (failed_tests w) in
    (v <- x ;;
     if Z.eqb v 0 then ret tt
     else
       pr_warn ("TC failed at " ++ place)%string ;;
       fun w2 => (Done tt,
                  World (kprobe_calls w2) (live_kprobes w2) (log w2)
                        (failures w2) (lookups w2) (total_tests w2)
                        (uint_succ (failed_tests w2)))) w1.

(** A function definition [int name(void) { ... }] of a source file:
    the name as it is written, before macro replacement, and the body. *)
Record fundef : Type := { f_name : list Cpp.token; f_body : M Z }.

(** Modelled from the spec: include/linux/kallsyms.h is not under src/.
    The limit on the length of a symbol name, terminating NUL counted:
    the longest name has 511 characters. *)
Definition KSYM_NAME_LEN : Z := 512.

End Kernel.

(** ** lib/longest_symbol_kunit.c *)

Module KunitFile.
Import Cpp Macros Kernel.
Local Open Scope Z_scope.

Definition macros : list macro := longest_symbol_kunit_c.

(** [__stringify(LONGEST_SYM_NAME)] and
    [__stringify(LONGEST_SYM_NAME_PLUS1)] of lines 71 and 101. *)
Definition longest_sym_literal : string :=
  stringify macros [Id "LONGEST_SYM_NAME"].
Definition longest_sym_plus1_literal : string :=
  stringify macros [Id "LONGEST_SYM_NAME_PLUS1"].

(** The condition of the [_Static_assert] of line 39, for a value of
    [KSYM_NAME_LEN]. *)
Definition static_assert (ksym_name_len : Z) : bool :=
  Z.eqb (sizeof_literal longest_sym_literal) ksym_name_len.

Definition LONGEST_SYM_NAME : M Z := ret 424242.

Definition LONGEST_SYM_NAME_PLUS1 : M Z := ret 434343.

(** The functions the file defines (lines 29-37). *)
Definition functions : list fundef :=
  [ {| f_name := [Id "LONGEST_SYM_NAME"]; f_body := LONGEST_SYM_NAME |};
    {| f_name := [Id "LONGEST_SYM_NAME_PLUS1"];
       f_body := LONGEST_SYM_NAME_PLUS1 |} ].

Section Tests.

Variable k : kernel.

Definition test_longest_symbol : M unit :=
  v <- LONGEST_SYM_NAME ;;
  KUNIT_EXPECT_EQ 424242 v "424242 == LONGEST_SYM_NAME()".

(** [longest_sym] is a static local, assigned before its only use. *)
Definition test_longest_symbol_kallsyms : M unit :=
  let func := "test_longest_symbol_kallsyms" in
  let kp := {| symbol_name := "kallsyms_lookup_name"; addr := 0 |} in
  '(r, kp) <- register_kprobe k kp ;;
  if Z.ltb r 0 then
    pr_info (func ++ ": kprobe not registered\n")%string ;;
    kunit_warn "test_longest_symbol kallsyms: kprobe not registered\n" ;;
    '(r', kp) <- register_kprobe k kp ;;
    KUNIT_ASSERT_TRUE (Z.ltb r' 0) "register_kprobe(&kp) < 0" ;;
    KUNIT_FAIL "test_longest_symbol kallsysms: kprobe not registered\n" ;;
    ret tt
  else
    kunit_warn "test_longest_symbol kallsyms: kprobe registered\n" ;;
    let kallsyms_lookup_name := addr kp in
    unregister_kprobe kp ;;
    longest_sym <- call_lookup k kallsyms_lookup_name longest_sym_literal ;;
    v <- call_int k longest_sym ;;
    KUNIT_EXPECT_EQ 424242 v "424242 == longest_sym()".

Definition test_longest_symbol_plus1 : M unit :=
  v <- LONGEST_SYM_NAME_PLUS1 ;;
  KUNIT_EXPECT_EQ 434343 v "434343 == LONGEST_SYM_NAME_PLUS1()".

Definition test_longest_symbol_plus1_kallsyms : M unit :=
  let func := "test_longest_symbol_plus1_kallsyms" in
  let kp := {| symbol_name := "kallsyms_lookup_name"; addr := 0 |} in
  '(r, kp) <- register_kprobe k kp ;;
  if Z.ltb r 0 then
    pr_info (func ++ ": kprobe not registered\n")%string ;;
    '(r', kp) <- register_kprobe k kp ;;
    KUNIT_ASSERT_TRUE (Z.ltb r' 0) "register_kprobe(&kp) < 0" ;;
    KUNIT_FAIL "test_longest_symbol kallsysms: kprobe not registered\n" ;;
    ret tt
  else
    kunit_warn "test_longest_symbol_plus1 kallsyms: kprobe registered\n" ;;
    let kallsyms_lookup_name := addr kp in
    unregister_kprobe kp ;;
    longest_sym_plus1 <-
      call_lookup k kallsyms_lookup_name longest_sym_plus1_literal ;;
    KUNIT_EXPECT_EQ 0 longest_sym_plus1 "NULL == longest_sym_plus1".

Definition longest_symbol_test_cases : list (string * M unit) :=
  [ ("test_longest_symbol", test_longest_symbol);
    ("test_longest_symbol_kallsyms", test_longest_symbol_kallsyms);
    ("test_longest_symbol_plus1", test_longest_symbol_plus1);
    ("test_longest_symbol_plus1_kallsyms",
     test_longest_symbol_plus1_kallsyms) ].

End Tests.

End KunitFile.

(** ** The header-based suite: lib/longest_symbol.h, the file that
    defines the two functions and the file of the test cases *)

Module HeaderBased.
Import Cpp Macros Kernel.
Local Open Scope Z_scope.

Definition macros : list macro := longest_symbol_h.

(** [__stringify(LONGEST_SYM_NAME)] and
    [__stringify(LONGEST_SYM_NAME_PLUS1)] of the test cases. *)
Definition longest_sym_literal : string :=
  stringify macros [Id "LONGEST_SYM_NAME"].
Definition longest_sym_plus1_literal : string :=
  stringify macros [Id "LONGEST_SYM_NAME_PLUS1"].

Definition static_assert (ksym_name_len : Z) : bool :=
  Z.eqb (sizeof_literal longest_sym_literal) ksym_name_len.

Definition LONGEST_SYM_NAME : M Z := ret 424242.

Definition LONGEST_SYM_NAME_PLUS1 : M Z := ret 434343.

(** The functions the second file defines (lines 4-12). *)
Definition functions : list fundef :=
  [ {| f_name := [Id "LONGEST_SYM_NAME"]; f_body := LONGEST_SYM_NAME |};
    {| f_name := [Id "LONGEST_SYM_NAME_PLUS1"];
       f_body := LONGEST_SYM_NAME_PLUS1 |} ].

Section Tests.

Variable k : kernel.

Definition test_longest_symbol : M unit :=
  v <- LONGEST_SYM_NAME ;;
  KUNIT_EXPECT_EQ 424242 v "424242 == LONGEST_SYM_NAME()".

Definition test_longest_symbol_kallsyms : M unit :=
  let kp := {| symbol_name := "kallsyms_lookup_name"; addr := 0 |} in
  '(r, kp) <- register_kprobe k kp ;;
  if Z.ltb r 0 then
    pr_info "test_longest_symbol_kallsyms: kprobe not registered\n" ;;
    kunit_warn "test_longest_symbol kallsyms: kprobe not registered\n" ;;
    '(r', kp) <- register_kprobe k kp ;;
    KUNIT_ASSERT_TRUE (Z.ltb r' 0) "register_kprobe(&kp) < 0" ;;
    KUNIT_FAIL "test_longest_symbol kallsysms: kprobe not registered\n" ;;
    ret tt
  else
    kunit_warn "test_longest_symbol kallsyms: kprobe registered\n" ;;
    let kallsyms_lookup_name := addr kp in
    unregister_kprobe kp ;;
    longest_sym <- call_lookup k kallsyms_lookup_name longest_sym_literal ;;
    v <- call_int k longest_sym ;;
    KUNIT_EXPECT_EQ 424242 v "424242 == longest_sym()".

Definition test_longest_symbol_plus1 : M unit :=
  v <- LONGEST_SYM_NAME_PLUS1 ;;
  KUNIT_EXPECT_EQ 434343 v "434343 == LONGEST_SYM_NAME_PLUS1()".

(** The two adjacent literals of the [pr_info] are one string. *)
Definition test_longest_symbol_plus1_kallsyms : M unit :=
  let kp := {| symbol_name := "kallsyms_lookup_name"; addr := 0 |} in
  '(r, kp) <- register_kprobe k kp ;;
  if Z.ltb r 0 then
    pr_info "test_longest_symbol_plus1_kallsyms: kprobe not registered\n" ;;
    '(r', kp) <- register_kprobe k kp ;;
    KUNIT_ASSERT_TRUE (Z.ltb r' 0) "register_kprobe(&kp) < 0" ;;
    KUNIT_FAIL "test_longest_symbol kallsysms: kprobe not registered\n" ;;
    ret tt
  else
    let kallsyms_lookup_name := addr kp in
    unregister_kprobe kp ;;
    longest_sym_plus1 <-
      call_lookup k kallsyms_lookup_name longest_sym_plus1_literal ;;
    v <- call_int k longest_sym_plus1 ;;
    KUNIT_EXPECT_EQ 434343 v "434343 == longest_sym_plus1()".

Definition longest_symbol_test_cases : list (string * M unit) :=
  [ ("test_longest_symbol", test_longest_symbol);
    ("test_longest_symbol_kallsyms", test_longest_symbol_kallsyms);
    ("test_longest_symbol_plus1", test_longest_symbol_plus1);
    ("test_longest_symbol_plus1_kallsyms",
     test_longest_symbol_plus1_kallsyms) ].

End Tests.

End HeaderBased.

(** ** lib/test_longest_symbol.c *)

Module Selftest.
Import Cpp Macros Kernel.
Local Open Scope Z_scope.

Definition macros : list macro := test_longest_symbol_c.

Definition longest_symbol_literal : string :=
  stringify macros [Id "LONGEST_SYMBOL"].

(** The condition of the [_Static_assert] of line 24. *)
Definition static_assert (ksym_name_len : Z) : bool :=
  Z.eqb ksym_name_len (strlen longest_symbol_literal).

Definition LONGEST_SYMBOL : M unit := ret tt.

Section Checks.

Variable k : kernel.

Definition check_longest_symbol_exported : M Z :=
  let kp := {| symbol_name := "kallsyms_lookup_name"; addr := 0 |} in
  '(r, kp) <- register_kprobe k kp ;;
  if Z.ltb r 0 then
    pr_info "test_longest_symbol: kprobe not registered\n" ;;
    ret 1
  else
    let kallsyms_lookup_name := addr kp in
    unregister_kprobe kp ;;
    found <- call_lookup k kallsyms_lookup_name longest_symbol_literal ;;
    if negb (Z.eqb found 0) then
      pr_info ("test_longest_symbol: symbol found: " ++
               longest_symbol_literal ++ "\n")%string ;;
      ret 0
    else
      pr_info "test_longest_symbol: longest_symbol not found\n" ;;
      ret 1.

(** [config_kprobes] is [defined(CONFIG_KPROBES)]. *)
Definition selftest (config_kprobes : bool) : M unit :=
  pr_info "test_longest_symbol loaded\n" ;;
  if config_kprobes then
    KSTM_CHECK_ZERO check_longest_symbol_exported "selftest:57\n"
  else
    pr_info "To check the longest symbol exported it is needed to have defined CONFIG_KPROBES\n".

End Checks.

End Selftest.

(** ** The kernel image a file is built into *)

Module Image.
Import Cpp Macros Kernel.
Local Open Scope Z_scope.

(** The name of a function in the object file: its name as written,
    after macro replacement by the macros of the file. *)
Definition symbol_of (tbl : list macro) (f : fundef) : string :=
  identifier tbl (f_name f).

Fixpoint place (a : Z) (tbl : list macro) (fs : list fundef)
    : list (string * Z * M Z) :=
  match fs with
  | [] => []
  | f :: fs' => (symbol_of tbl f, a, f_body f) :: place (a + 16) tbl fs'
  end.

Fixpoint address_of (name : string) (img : list (string * Z * M Z)) : Z :=
  match img with
  | [] => 0
  | (n, a, _) :: img' =>
      if String.eqb n name then a else address_of name img'
  end.

Fixpoint function_at (a : Z) (img : list (string * Z * M Z))
    : option (M Z) :=
  match img with
  | [] => None
  | (_, b, f) :: img' => if Z.eqb a b then Some f else function_at a img'
  end.

(** Modelled from the spec: the build of the image and its symbol table
    (the linker, scripts/kallsyms.c, kernel/kallsyms.c) are not under
    src/.  The functions of the file are placed one after the other;
    [kallsyms_lookup_name] is a function of the kernel itself; a symbol
    "is resolvable through the kernel's symbol table" when the image
    defines it and its name is within "the kernel's symbol-name length
    limit", that is, fits [KSYM_NAME_LEN] with its terminating NUL.
    [reg] is what the calls of [register_kprobe] return. *)
Definition link (reg : nat -> Z) (tbl : list macro) (fs : list fundef)
    : kernel :=
  let img := place 8192 tbl fs in
  {| register_kprobe_ret := reg;
     kallsyms := fun name =>
       if String.eqb name "kallsyms_lookup_name" then 4096
       else if Z.ltb (strlen name) KSYM_NAME_LEN then address_of name img
       else 0;
     text := fun a => function_at a img |}.

Definition kunit_image (reg : nat -> Z) : kernel :=
  link reg KunitFile.macros KunitFile.functions.

Definition header_image (reg : nat -> Z) : kernel :=
  link reg HeaderBased.macros HeaderBased.functions.

End Image.

(** ** Kernels to run the cases in *)

Module Scenarios.
Import Cpp Macros Kernel Image.
Local Open Scope Z_scope.

(** [register_kprobe] always succeeds. *)
Definition granted : nat -> Z := fun _ => 0.

(** [register_kprobe] always fails, with -ENOENT. *)
Definition refused : nat -> Z := fun _ => -2.

(** An image that has none of the functions of the files: kallsyms
    resolves [kallsyms_lookup_name] and nothing else. *)
Definition without_symbols (reg : nat -> Z) : kernel := link reg [] [].

(** A kernel in which every name resolves to a function that returns
    434343. *)
Definition resolving_all : kernel :=
  {| register_kprobe_ret := granted;
     kallsyms := fun name =>
       if String.eqb name "kallsyms_lookup_name" then 4096 else 8192;
     text := fun a => if Z.eqb a 8192 then Some (ret 434343) else None |}.

End Scenarios.

(** ** What the properties are stated with *)

Module Statements.
Import Cpp Macros Kernel.

(** [m(name)] is replaced by the identifier [r] in the header and in the
    self-contained file alike. *)
Definition both_expand (m name r : string) : Prop :=
  preprocess longest_symbol_h (Chain.call m name) = Some [Id r] /\
  preprocess longest_symbol_kunit_c (Chain.call m name) = Some [Id r].

(** The world after the two refused registrations of a case, or after a
    refused and a granted one, and after a lookup. *)
Definition after_refusal (live : nat) (l : list (string * string))
    (failure : string) : world :=
  World 2 live l [failure] [] 0 0.

Definition after_lookup (l : list (string * string)) (name : string)
    : world :=
  World 1 0 l [] [name] 0 0.

(** The messages [check_longest_symbol_exported] prints before it
    returns 1. *)
Definition diagnostic (msg : string) : Prop :=
  msg = "test_longest_symbol: kprobe not registered\n" \/
  msg = "test_longest_symbol: longest_symbol not found\n".


(** A case that returns, with no failure recorded exactly when [pass]
    holds. *)
Definition verdict (r : outcome unit * world) (pass : Prop) : Prop :=
  fst r = Done tt /\ (failures (snd r) = [] <-> pass).

End Statements.

(** ** What the further properties are stated with *)

Module Effects.
Import Cpp Macros Kernel.

(** The state a case leaves: [calls] more calls of [register_kprobe],
    [live] more kprobes, the log, the failures and the names looked up
    grown by [l], [fs] and [names]. *)
Definition grown (w : world) (calls live : nat) (l : list (string * string))
    (fs names : list string) : world :=
  World (calls + kprobe_calls w) (live + live_kprobes w) (log w ++ l)
        (failures w ++ fs) (lookups w ++ names) (total_tests w)
        (failed_tests w).

(** What a case has done when its first [register_kprobe] failed: two
    calls of [register_kprobe], no lookup, one KUnit failure more; it
    has returned, with the kprobes as they were, when the second call
    failed as well, and otherwise was aborted with one kprobe more
    registered. *)
Definition after_refused (k : kernel) (w : world)
    (r : outcome unit * world) : Prop :=
  kprobe_calls (snd r) = S (S (kprobe_calls w)) /\
  lookups (snd r) = lookups w /\
  (exists msg, failures (snd r) = failures w ++ [msg]) /\
  ((register_kprobe_ret k (S (kprobe_calls w)) < 0)%Z ->
   fst r = Done tt /\ live_kprobes (snd r) = live_kprobes w) /\
  ((0 <= register_kprobe_ret k (S (kprobe_calls w)))%Z ->
   fst r = Aborted /\ live_kprobes (snd r) = S (live_kprobes w)).

(** What a case has done once the kprobe was granted and the name looked
    up: one call of [register_kprobe], the kprobe unregistered again,
    the lookup of [name] and no other. *)
Definition after_granted (w : world) (name : string)
    (r : outcome unit * world) : Prop :=
  kprobe_calls (snd r) = S (kprobe_calls w) /\
  live_kprobes (snd r) = live_kprobes w /\
  lookups (snd r) = lookups w ++ [name].

(** A case that calls the address it looked up and expects [expected]
    of the call. *)
Definition calling_case (k : kernel) (w : world) (test : M unit)
    (name : string) (expected : Z) : Prop :=
  let r := test w in
  let c := kprobe_calls w in
  ((register_kprobe_ret k c < 0)%Z -> after_refused k w r) /\
  ((0 <= register_kprobe_ret k c)%Z ->
   text k (kallsyms k name) = None ->
   fst r = Faulted /\ failures (snd r) = failures w /\
   after_granted w name r) /\
  ((0 <= register_kprobe_ret k c)%Z ->
   forall v, text k (kallsyms k name) = Some (ret v) ->
   fst r = Done tt /\ (failures (snd r) = failures w <-> v = expected) /\
   after_granted w name r).

(** Modelled from the spec: kernel/kprobes.c is not under src/.  A call
    of [register_kprobe] repeated on a kprobe whose registration has
    just failed fails again: a symbol that did not resolve does not
    resolve the second time, and once it has resolved [kp.addr] is set,
    which [register_kprobe] refuses, with -EINVAL, on a kprobe that has
    a [symbol_name] as well.  The cases make their first call in the
    state [w] and, when it fails, the second one on the same kprobe. *)
Definition retry_refused (k : kernel) (w : world) : Prop :=
  (register_kprobe_ret k (kprobe_calls w) < 0)%Z ->
  (register_kprobe_ret k (S (kprobe_calls w)) < 0)%Z.

(** The functions that can be called through an address leave the
    kprobes as they find them. *)
Definition leaves_kprobes (k : kernel) : Prop :=
  forall (a : Z) (f : M Z) (w : world),
    text k a = Some f -> live_kprobes (snd (f w)) = live_kprobes w.

(** A run that leaves as many kprobes registered as there were in
    [w]. *)
Definition paired (w : world) {A} (r : outcome A * world) : Prop :=
  live_kprobes (snd r) = live_kprobes w.

(** Macro replacement of a line with a given amount of fuel;
    [preprocess] is this with [fuel0]. *)
Definition replace_with (tbl : list macro) (fuel : nat) (ts : list token)
    : option (list token) :=
  option_map (map fst) (expand tbl fuel (map (fun t => (t, [])) ts)).

Definition chain_names : list string :=
  ["DI"; "DDI"; "DDDI"; "DDDDI"; "DDDDDI"].

Definition files : list (list macro) :=
  [longest_symbol_h; longest_symbol_kunit_c].

(** The characters of an identifier of C: letters, digits and the
    underscore, the first one not a digit. *)
Definition ident_start (c : ascii) : bool :=
  let n := nat_of_ascii c in
  ((65 <=? n) && (n <=? 90) || (97 <=? n) && (n <=? 122) || (n =? 95))%nat.

Definition ident_char (c : ascii) : bool :=
  let n := nat_of_ascii c in
  (ident_start c || (48 <=? n) && (n <=? 57))%nat.

Fixpoint all_chars (p : ascii -> bool) (s : string) : bool :=
  match s with
  | EmptyString => true
  | String c s' => p c && all_chars p s'
  end.

Definition is_identifier (s : string) : bool :=
  match s with
  | EmptyString => false
  | String c s' => ident_start c && all_chars ident_char s'
  end.


End Effects.

(** * Properties *)

Import Cpp Macros Kernel Image Scenarios Statements.

(** ** Macro replacement on small inputs *)

(** A macro is not replaced inside its own replacement, directly or
    through another macro, so replacement ends. *)
Example self_reference :
  preprocess [Macro "foo" None false [Id "foo"; Id "bar"]] [Id "foo"]
    = Some [Id "foo"; Id "bar"] /\
  preprocess [Macro "a" None false [Id "b"]; Macro "b" None false [Id "a"]]
    [Id "a"; Id "b"] = Some [Id "a"; Id "b"].
Proof. split; reflexivity. Qed.

(** The name of a function-like macro without a call is left alone, and
    a call that is not closed has no replacement. *)
Example calls_only :
  preprocess longest_symbol_h [Id "DI"; Id "x"] = Some [Id "DI"; Id "x"] /\
  preprocess longest_symbol_h [Id "DI"; LParen; Id "x"] = None.
Proof. split; reflexivity. Qed.

(** An argument that is an operand of [#] or [##] is not replaced, any
    other one is: the two levels of [__stringify] and [__PASTE]. *)
Example operands_as_written :
  preprocess longest_symbol_h
    [Id "__stringify_1"; LParen; Id "LONGEST_SYM_PLUS1"; RParen]
    = Some [Str "LONGEST_SYM_PLUS1"] /\
  preprocess longest_symbol_h
    [Id "__stringify"; LParen; Id "LONGEST_SYM_PLUS1"; RParen]
    = Some [Str "LONGEST_SYM_NAMEe"] /\
  preprocess longest_symbol_h
    [Id "___PASTE"; LParen; Id "DI"; Comma; Id "LONGEST_SYM_PLUS1"; RParen]
    = Some [Id "DILONGEST_SYM_PLUS1"] /\
  preprocess longest_symbol_h
    [Id "__PASTE"; LParen; Id "DI"; LParen; Id "a"; RParen; Comma;
     Id "LONGEST_SYM_PLUS1"; RParen]
    = Some [Id "saaLONGEST_SYM_NAMEe"].
Proof. repeat split; reflexivity. Qed.

Lemma length_append (a b : string) :
  String.length (a ++ b)%string = String.length a + String.length b.
Proof.
  induction a as [|c a IH]; simpl; [reflexivity|].
  now rewrite IH.
Qed.

(** The macros of the chain compute the functions of [Chain], whatever
    identifier they are given and in either file. *)
Lemma chain_expands (name : string) :
  forall tbl, tbl = longest_symbol_h \/ tbl = longest_symbol_kunit_c ->
  preprocess tbl (Chain.call "DI" name) = Some [Id (Chain.DI name)] /\
  preprocess tbl (Chain.call "DDI" name) = Some [Id (Chain.DDI name)] /\
  preprocess tbl (Chain.call "DDDI" name) = Some [Id (Chain.DDDI name)] /\
  preprocess tbl (Chain.call "DDDDI" name) = Some [Id (Chain.DDDDI name)] /\
  preprocess tbl (Chain.call "DDDDDI" name) = Some [Id (Chain.DDDDDI name)].
Proof.
  intros tbl [-> | ->]; repeat split; vm_compute; reflexivity.
Qed.

Lemma chain_lengths (name : string) :
  let n := String.length name in
  String.length (Chain.DI name) = 2 * n + 1 /\
  String.length (Chain.DDI name) = 4 * n + 3 /\
  String.length (Chain.DDDI name) = 8 * n + 7 /\
  String.length (Chain.DDDDI name) = 16 * n + 15 /\
  String.length (Chain.DDDDDI name) = 32 * n + 31.
Proof.
  unfold Chain.DDDDDI, Chain.DDDDI, Chain.DDDI, Chain.DDI, Chain.DI.
  repeat (cbn [String.append String.length]; rewrite ?length_append).
  lia.
Qed.

(** ** Fuel *)

(** More fuel does not change a result: [subst] first, for the
    replacement of arguments it is given, then [expand]. *)
Lemma subst_more (ex ex' : list htok -> option (list htok))
    (ap : list (string * list htok)) :
  (forall a r, ex a = Some r -> ex' a = Some r) ->
  forall n body os r,
    length body <= n ->
    subst ex ap body os = Some r -> subst ex' ap body os = Some r.
Proof.
  intros Hex. induction n as [|n IH]; intros body os r Hn H.
  - destruct body; [exact H | simpl in Hn; lia].
  - destruct body as [|t body1]; [exact H|].
    simpl in Hn, H |- *.
    repeat match type of H with
           | match ?x with _ => _ end = Some _ =>
               let E := fresh "E" in
               destruct x eqn:E; try discriminate;
               try (match type of E with
                    | ex _ = Some _ => rewrite (Hex _ _ E)
                    end)
           end;
      simpl in Hn; try exact H; try (apply IH; [simpl; lia | exact H]).
Qed.

Lemma expand_more (tbl : list macro) :
  forall n ts r, expand tbl n ts = Some r ->
  forall m, n <= m -> expand tbl m ts = Some r.
Proof.
  induction n as [|n IH]; intros ts r H m Hm; [discriminate|].
  destruct m as [|m]; [lia|].
  assert (Hex : forall a r, expand tbl n a = Some r ->
                            expand tbl m a = Some r)
    by (intros a r0 Ha; apply (IH _ _ Ha); lia).
  simpl in H |- *.
  repeat match type of H with
         | match ?x with _ => _ end = Some _ =>
             let E := fresh "E" in
             destruct x eqn:E; try discriminate;
             try (match type of E with
                  | expand _ _ _ = Some _ => rewrite (Hex _ _ E)
                  | subst _ _ _ _ = Some _ =>
                      rewrite (subst_more _ _ _ Hex _ _ _ _ (le_n _) E)
                  end)
         | (if ?x then _ else _) = Some _ =>
             let E := fresh "E" in destruct x eqn:E
         end;
    try exact H; try (apply Hex; exact H).
Qed.

(** The fuel of [preprocess] is enough whenever any fuel at least as
    large is: a result of [preprocess] is the result of macro
    replacement. *)
Lemma preprocess_stable (tbl : list macro) (ts r : list token) :
  preprocess tbl ts = Some r ->
  forall m, fuel0 <= m ->
  option_map (map fst) (expand tbl m (map (fun t => (t, [])) ts)) = Some r.
Proof.
  unfold preprocess. intros H m Hm.
  destruct (expand tbl fuel0 (map (fun t => (t, [])) ts)) as [r0|] eqn:E;
    [|discriminate].
  rewrite (expand_more _ _ _ _ E _ Hm). exact H.
Qed.

(** C6. For every identifier [name], [DI(name)] is an identifier of
    length [2 * length name + 1]; each further macro of the chain is
    [DI] of the level below applied to [n##name##name], so that its
    result is once more twice as long plus one; [DDDDDI(name)] has
    length [32 * length name + 31], which is 511 for the seed of 15
    characters. *)
Theorem chain_recurrence (name : string) :
  let n := String.length name in
  let next := ("n" ++ name ++ name)%string in
  both_expand "DI" name (Chain.DI name) /\
  String.length (Chain.DI name) = 2 * n + 1 /\
  both_expand "DDI" name (Chain.DI next) /\
  String.length (Chain.DI next) = 2 * String.length (Chain.DI name) + 1 /\
  both_expand "DDDI" name (Chain.DDI next) /\
  String.length (Chain.DDI next) = 2 * String.length (Chain.DDI name) + 1 /\
  both_expand "DDDDI" name (Chain.DDDI next) /\
  String.length (Chain.DDDI next) = 2 * String.length (Chain.DDDI name) + 1 /\
  both_expand "DDDDDI" name (Chain.DDDDI next) /\
  String.length (Chain.DDDDI next) = 2 * String.length (Chain.DDDDI name) + 1 /\
  String.length (Chain.DDDDDI name) = 32 * n + 31 /\
  String.length seed = 15 /\
  String.length (Chain.DDDDDI seed) = 511.
Proof.
  intros n next.
  destruct (chain_expands name longest_symbol_h (or_introl eq_refl))
    as (h1 & h2 & h3 & h4 & h5).
  destruct (chain_expands name longest_symbol_kunit_c (or_intror eq_refl))
    as (k1 & k2 & k3 & k4 & k5).
  destruct (chain_lengths name) as (l1 & l2 & l3 & l4 & l5).
  fold n in l1, l2, l3, l4, l5.
  change (Chain.DI next) with (Chain.DDI name).
  change (Chain.DDI next) with (Chain.DDDI name).
  change (Chain.DDDI next) with (Chain.DDDDI name).
  change (Chain.DDDDI next) with (Chain.DDDDDI name).
  unfold both_expand.
  repeat match goal with |- _ /\ _ => split end;
    try assumption; try lia; reflexivity.
Qed.

(** C1. [LONGEST_SYM_NAME] is replaced by [DDDDDI] of the seed, an
    identifier of 511 characters, in the self-contained file and through
    the header; the size of its stringification, terminating NUL
    counted, is [KSYM_NAME_LEN], 512, which is what the two
    [_Static_assert]s require. *)
Theorem longest_sym_name_is_511 :
  preprocess longest_symbol_kunit_c [Id "LONGEST_SYM_NAME"]
    = Some [Id (Chain.DDDDDI seed)] /\
  preprocess longest_symbol_h [Id "LONGEST_SYM_NAME"]
    = Some [Id (Chain.DDDDDI seed)] /\
  String.length (Chain.DDDDDI seed) = 511 /\
  KunitFile.longest_sym_literal = Chain.DDDDDI seed /\
  HeaderBased.longest_sym_literal = Chain.DDDDDI seed /\
  sizeof_literal KunitFile.longest_sym_literal = KSYM_NAME_LEN /\
  sizeof_literal HeaderBased.longest_sym_literal = KSYM_NAME_LEN /\
  KSYM_NAME_LEN = 512%Z /\
  KunitFile.static_assert KSYM_NAME_LEN = true /\
  HeaderBased.static_assert KSYM_NAME_LEN = true.
Proof.
  repeat split; vm_compute; reflexivity.
Qed.

(** C5, evaluated on the two files that define the function.  In the
    self-contained file its name is the 511 characters with [e]
    appended, 512 characters.  In the header-based file the name is the
    identifier [LONGEST_SYM_NAME_PLUS1] itself, 22 characters: the header
    defines no macro of that name, and the macro it does define,
    [LONGEST_SYM_PLUS1], is replaced by [LONGEST_SYM_NAMEe]. *)
Theorem plus1_function_names :
  map (symbol_of KunitFile.macros) KunitFile.functions
    = [Chain.DDDDDI seed; (Chain.DDDDDI seed ++ "e")%string] /\
  String.length (Chain.DDDDDI seed ++ "e")%string = 512 /\
  map (symbol_of HeaderBased.macros) HeaderBased.functions
    = [Chain.DDDDDI seed; "LONGEST_SYM_NAME_PLUS1"] /\
  String.length "LONGEST_SYM_NAME_PLUS1" = 22 /\
  KunitFile.longest_sym_plus1_literal = (Chain.DDDDDI seed ++ "e")%string /\
  HeaderBased.longest_sym_plus1_literal = "LONGEST_SYM_NAME_PLUS1" /\
  preprocess longest_symbol_h [Id "LONGEST_SYM_PLUS1"]
    = Some [Id "LONGEST_SYM_NAMEe"] /\
  preprocess longest_symbol_h (Chain.call "PLUS1" "LONGEST_SYM_NAME")
    = Some [Id "LONGEST_SYM_NAMEe"] /\
  preprocess longest_symbol_kunit_c (Chain.call "PLUS1" "LONGEST_SYM_NAME")
    = Some [Id (Chain.DDDDDI seed ++ "e")%string].
Proof.
  repeat split; vm_compute; reflexivity.
Qed.

Lemma selftest_literal_strlen : strlen Selftest.longest_symbol_literal = 127%Z.
Proof. vm_compute. reflexivity. Qed.

Lemma kunit_literal_sizeof :
  sizeof_literal KunitFile.longest_sym_literal = 512%Z.
Proof. vm_compute. reflexivity. Qed.

(** C9. The identifier [LONGEST_SYMBOL] stands for has 127 characters.
    The [_Static_assert] of the selftest compares [KSYM_NAME_LEN] with
    the [strlen] of its stringification and holds exactly for 127; the
    one of the KUnit file compares with [sizeof], one more than the
    [strlen], and holds exactly for 512. *)
Theorem selftest_symbol_length :
  (exists s, preprocess test_longest_symbol_c [Id "LONGEST_SYMBOL"]
               = Some [Id s] /\
             Selftest.longest_symbol_literal = s /\
             String.length s = 127) /\
  (forall n : Z, Selftest.static_assert n = true <-> n = 127%Z) /\
  (forall n : Z, KunitFile.static_assert n = true <-> n = 512%Z) /\
  (forall s : string, sizeof_literal s = (strlen s + 1)%Z) /\
  strlen KunitFile.longest_sym_literal = 511%Z.
Proof.
  split; [|split; [|split; [|split]]].
  - eexists. repeat split; vm_compute; reflexivity.
  - intro n. unfold Selftest.static_assert.
    rewrite selftest_literal_strlen. apply Z.eqb_eq.
  - intro n. unfold KunitFile.static_assert.
    rewrite kunit_literal_sizeof, Z.eqb_eq. split; congruence.
  - reflexivity.
  - vm_compute. reflexivity.
Qed.

(** ** The monad *)

Lemma bind_ret {A B} (a : A) (f : A -> M B) (w : world) :
  bind (ret a) f w = f a w.
Proof. reflexivity. Qed.

Lemma bind_bind {A B C} (c : M A) (f : A -> M B) (g : B -> M C)
    (w : world) :
  bind (bind c f) g w = bind c (fun a => bind (f a) g) w.
Proof.
  unfold bind. destruct (c w) as [[a| |] w']; reflexivity.
Qed.

(** ** Runs of the test cases *)

Ltac run :=
  cbv beta iota zeta delta
    [KunitFile.test_longest_symbol KunitFile.test_longest_symbol_kallsyms
     KunitFile.test_longest_symbol_plus1
     KunitFile.test_longest_symbol_plus1_kallsyms
     KunitFile.LONGEST_SYM_NAME KunitFile.LONGEST_SYM_NAME_PLUS1
     HeaderBased.test_longest_symbol HeaderBased.test_longest_symbol_kallsyms
     HeaderBased.test_longest_symbol_plus1
     HeaderBased.test_longest_symbol_plus1_kallsyms
     HeaderBased.LONGEST_SYM_NAME HeaderBased.LONGEST_SYM_NAME_PLUS1
     Selftest.check_longest_symbol_exported Selftest.selftest
     KSTM_CHECK_ZERO
     bind ret register_kprobe unregister_kprobe call_lookup call_int
     pr_info pr_warn kunit_warn emit
     KUNIT_EXPECT_EQ KUNIT_ASSERT_TRUE KUNIT_FAIL record_failure boot
     kprobe_calls live_kprobes log failures lookups total_tests failed_tests
     symbol_name addr fst snd Nat.pred app String.append].

Section Runs.

Variable k : kernel.
Let reg := register_kprobe_ret k.

Ltac cases :=
  unfold reg; run;
  destruct (Z.ltb (register_kprobe_ret k 0) 0) eqn:R0;
  [ destruct (Z.ltb (register_kprobe_ret k 1) 0) eqn:R1 | ];
  repeat (run; rewrite ?Z.eqb_refl;
          repeat match goal with H : _ = _ |- _ => rewrite H end);
  reflexivity.


Lemma kunit_plus1_kallsyms_run :
  KunitFile.test_longest_symbol_plus1_kallsyms k boot =
  let l :=
    [("pr_info",
      "test_longest_symbol_plus1_kallsyms: kprobe not registered\n")] in
  if Z.ltb (reg 0) 0 then
    if Z.ltb (reg 1) 0 then
      (Done tt,
       after_refusal 0 l
         "test_longest_symbol kallsysms: kprobe not registered\n")
    else (Aborted, after_refusal 1 l "register_kprobe(&kp) < 0")
  else
    KUNIT_EXPECT_EQ 0 (kallsyms k KunitFile.longest_sym_plus1_literal)
      "NULL == longest_sym_plus1"
      (after_lookup
         [("kunit_warn",
           "test_longest_symbol_plus1 kallsyms: kprobe registered\n")]
         KunitFile.longest_sym_plus1_literal).
Proof. cases. Qed.


Lemma header_plus1_kallsyms_run :
  HeaderBased.test_longest_symbol_plus1_kallsyms k boot =
  let l :=
    [("pr_info",
      "test_longest_symbol_plus1_kallsyms: kprobe not registered\n")] in
  if Z.ltb (reg 0) 0 then
    if Z.ltb (reg 1) 0 then
      (Done tt,
       after_refusal 0 l
         "test_longest_symbol kallsysms: kprobe not registered\n")
    else (Aborted, after_refusal 1 l "register_kprobe(&kp) < 0")
  else
    (v <- call_int k (kallsyms k HeaderBased.longest_sym_plus1_literal) ;;
     KUNIT_EXPECT_EQ 434343 v "434343 == longest_sym_plus1()")
      (after_lookup [] HeaderBased.longest_sym_plus1_literal).
Proof. cases. Qed.

Lemma check_run (w : world) :
  Selftest.check_longest_symbol_exported k w =
  let seen l names :=
    World (S (kprobe_calls w)) (live_kprobes w) (log w ++ l) (failures w)
          names (total_tests w) (failed_tests w) in
  if Z.ltb (reg (kprobe_calls w)) 0 then
    (Done 1%Z,
     seen [("pr_info", "test_longest_symbol: kprobe not registered\n")]
          (lookups w))
  else if Z.eqb (kallsyms k Selftest.longest_symbol_literal) 0 then
    (Done 1%Z,
     seen [("pr_info", "test_longest_symbol: longest_symbol not found\n")]
          (lookups w ++ [Selftest.longest_symbol_literal]))
  else
    (Done 0%Z,
     seen [("pr_info",
            ("test_longest_symbol: symbol found: " ++
             Selftest.longest_symbol_literal ++ "\n")%string)]
          (lookups w ++ [Selftest.longest_symbol_literal])).
Proof.
  unfold reg; destruct w as [c l lg fs ls tt ft]; run.
  destruct (Z.ltb (register_kprobe_ret k c) 0) eqn:R0;
    repeat (run; rewrite ?Z.eqb_refl, ?R0).
  - reflexivity.
  - destruct (Z.eqb (kallsyms k Selftest.longest_symbol_literal) 0);
      reflexivity.
Qed.

End Runs.

(** ** The generated functions *)

(** C2. The two generated functions are constant: from any state,
    [LONGEST_SYM_NAME()] returns 424242 and [LONGEST_SYM_NAME_PLUS1()]
    returns 434343, in both files, and the state is left as it was.  The
    two cases that call them directly therefore return with nothing
    recorded. *)
Theorem generated_functions_constant (w : world) :
  KunitFile.LONGEST_SYM_NAME w = (Done 424242%Z, w) /\
  KunitFile.LONGEST_SYM_NAME_PLUS1 w = (Done 434343%Z, w) /\
  HeaderBased.LONGEST_SYM_NAME w = (Done 424242%Z, w) /\
  HeaderBased.LONGEST_SYM_NAME_PLUS1 w = (Done 434343%Z, w) /\
  KunitFile.test_longest_symbol w = (Done tt, w) /\
  KunitFile.test_longest_symbol_plus1 w = (Done tt, w) /\
  HeaderBased.test_longest_symbol w = (Done tt, w) /\
  HeaderBased.test_longest_symbol_plus1 w = (Done tt, w).
Proof.
  repeat split.
Qed.

(** ** The selftest module *)

Lemma selftest_run (k : kernel) :
  Selftest.selftest k true boot =
  let loaded := ("pr_info", "test_longest_symbol loaded\n") in
  if Z.ltb (register_kprobe_ret k 0) 0 then
    (Done tt,
     World 1 0
       [loaded;
        ("pr_info", "test_longest_symbol: kprobe not registered\n");
        ("pr_warn", "TC failed at selftest:57\n")] [] [] 1 1)
  else if Z.eqb (kallsyms k Selftest.longest_symbol_literal) 0 then
    (Done tt,
     World 1 0
       [loaded;
        ("pr_info", "test_longest_symbol: longest_symbol not found\n");
        ("pr_warn", "TC failed at selftest:57\n")] []
       [Selftest.longest_symbol_literal] 1 1)
  else
    (Done tt,
     World 1 0
       [loaded;
        ("pr_info",
         ("test_longest_symbol: symbol found: " ++
          Selftest.longest_symbol_literal ++ "\n")%string)] []
       [Selftest.longest_symbol_literal] 1 0).
Proof.
  run.
  destruct (Z.ltb (register_kprobe_ret k 0) 0) eqn:R0;
    repeat (run; rewrite ?Z.eqb_refl, ?R0); [reflexivity|].
  destruct (Z.eqb (kallsyms k Selftest.longest_symbol_literal) 0);
    reflexivity.
Qed.

(** Without [CONFIG_KPROBES] the check is not made. *)
Lemma selftest_without_kprobes (k : kernel) :
  Selftest.selftest k false boot =
  (Done tt,
   World 0 0
     [("pr_info", "test_longest_symbol loaded\n");
      ("pr_info", "To check the longest symbol exported it is needed to have defined CONFIG_KPROBES\n")]
     [] [] 0 0).
Proof. reflexivity. Qed.

(** C10. [check_longest_symbol_exported] returns 0 exactly when
    [register_kprobe] succeeds and the lookup of the stringified
    [LONGEST_SYMBOL] gives an address that is not zero.  Otherwise it
    returns 1, having printed one of its two diagnostics, and the
    selftest, which makes the check under [CONFIG_KPROBES], counts a
    failed test; when it returns 0 the selftest counts none. *)
Theorem check_longest_symbol_exported_result (k : kernel) :
  let r := Selftest.check_longest_symbol_exported k boot in
  let s := Selftest.selftest k true boot in
  let found :=
    (0 <= register_kprobe_ret k 0)%Z /\
    kallsyms k Selftest.longest_symbol_literal <> 0%Z in
  (fst r = Done 0%Z <-> found) /\
  (~ found ->
     fst r = Done 1%Z /\
     (exists msg, log (snd r) = [("pr_info", msg)] /\ diagnostic msg) /\
     total_tests (snd s) = 1 /\ failed_tests (snd s) = 1) /\
  (found -> total_tests (snd s) = 1 /\ failed_tests (snd s) = 0).
Proof.
  intros r s found. subst r s found.
  rewrite check_run, selftest_run. cbv zeta. unfold diagnostic.
  change (kprobe_calls boot) with 0.
  destruct (Z.ltb_spec (register_kprobe_ret k 0) 0) as [R|R];
    [|destruct (Z.eqb_spec (kallsyms k Selftest.longest_symbol_literal) 0)
        as [E|E]]; cbn [fst snd log total_tests failed_tests app boot].
  - split; [split; [discriminate | intros [? _]; lia]|].
    split; [intros _ | intros [? _]; lia].
    repeat split.
    eexists; split; [reflexivity | left; reflexivity].
  - split; [split; [discriminate | intros [_ ?]; congruence]|].
    split; [intros _ | intros [_ ?]; congruence].
    repeat split.
    eexists; split; [reflexivity | right; reflexivity].
  - split; [split; [intros _; split; assumption | reflexivity]|].
    split; [intros N; exfalso; apply N; split; assumption|].
    intros _. split; reflexivity.
Qed.

(** The theorem at a kernel in which the symbol is found, and at one in
    which the kprobe is refused. *)
Lemma check_longest_symbol_exported_result_witness :
  fst (Selftest.check_longest_symbol_exported resolving_all boot)
    = Done 0%Z /\
  failed_tests (snd (Selftest.selftest resolving_all true boot)) = 0 /\
  fst (Selftest.check_longest_symbol_exported (without_symbols refused) boot)
    = Done 1%Z /\
  failed_tests
    (snd (Selftest.selftest (without_symbols refused) true boot)) = 1.
Proof.
  destruct (check_longest_symbol_exported_result resolving_all)
    as (H1 & _ & H3).
  destruct (check_longest_symbol_exported_result (without_symbols refused))
    as (_ & H2 & _).
  assert (F : (0 <= register_kprobe_ret resolving_all 0)%Z /\
              kallsyms resolving_all Selftest.longest_symbol_literal <> 0%Z)
    by (split; vm_compute; discriminate).
  assert (N : ~ ((0 <= register_kprobe_ret (without_symbols refused) 0)%Z /\
                 kallsyms (without_symbols refused)
                   Selftest.longest_symbol_literal <> 0%Z))
    by (intros [L _]; vm_compute in L; apply L; reflexivity).
  split; [apply H1, F|].
  split; [apply (H3 F)|].
  split; apply (H2 N).
Defined.

(** ** The lookups through kallsyms *)




(** ** Failures, and the kprobes left behind *)

Lemma expectation_verdict (expected v : Z) (what : string) (w : world) :
  failures w = [] ->
  verdict (KUNIT_EXPECT_EQ expected v what w) (v = expected).
Proof.
  intros F. unfold verdict, KUNIT_EXPECT_EQ.
  destruct (Z.eqb_spec expected v) as [E|E]; cbn [fst snd].
  - split; [reflexivity|]. split; [intros _; symmetry; exact E | intros _; exact F].
  - split; [reflexivity|]. unfold record_failure; cbn [failures].
    rewrite F. split; [discriminate | intros E'; symmetry in E'; contradiction].
Qed.

Section Verdicts.

Variable k : kernel.
Let reg := register_kprobe_ret k.



Lemma kunit_plus1_kallsyms_verdict :
  (0 <= reg 0)%Z ->
  verdict (KunitFile.test_longest_symbol_plus1_kallsyms k boot)
          (kallsyms k KunitFile.longest_sym_plus1_literal = 0%Z).
Proof.
  unfold reg. intros R. apply Z.ltb_ge in R.
  rewrite kunit_plus1_kallsyms_run. cbv zeta. rewrite R.
  apply expectation_verdict. reflexivity.
Qed.


Lemma header_plus1_kallsyms_verdict (v : Z) :
  (0 <= reg 0)%Z ->
  text k (kallsyms k HeaderBased.longest_sym_plus1_literal) = Some (ret v) ->
  verdict (HeaderBased.test_longest_symbol_plus1_kallsyms k boot)
          (v = 434343%Z).
Proof.
  unfold reg. intros R T. apply Z.ltb_ge in R.
  rewrite header_plus1_kallsyms_run. cbv zeta. rewrite R.
  unfold call_int. rewrite T. unfold bind, ret.
  apply expectation_verdict. reflexivity.
Qed.

End Verdicts.




(** C4 as stated does not hold.  In a kernel in which every name
    resolves to a function that returns 434343, the self-contained case
    records a failure and the header-based one none; in the image of the
    self-contained file, in which neither name resolves, the
    self-contained case records none and the header-based one faults in
    its call. *)
Lemma plus1_kallsyms_cases_differ :
  failures
    (snd (KunitFile.test_longest_symbol_plus1_kallsyms resolving_all boot))
    = ["NULL == longest_sym_plus1"] /\
  failures
    (snd (HeaderBased.test_longest_symbol_plus1_kallsyms resolving_all boot))
    = [] /\
  KunitFile.test_longest_symbol_plus1_kallsyms (kunit_image granted) boot
    = (Done tt,
       after_lookup
         [("kunit_warn",
           "test_longest_symbol_plus1 kallsyms: kprobe registered\n")]
         KunitFile.longest_sym_plus1_literal) /\
  HeaderBased.test_longest_symbol_plus1_kallsyms (kunit_image granted) boot
    = (Faulted, after_lookup [] HeaderBased.longest_sym_plus1_literal).
Proof.
  rewrite !kunit_plus1_kallsyms_run, !header_plus1_kallsyms_run.
  repeat split; vm_compute; reflexivity.
Qed.

(** C4, amended.  The two implementations of
    [test_longest_symbol_plus1_kallsyms] do the same when the first
    [register_kprobe] fails.  When it succeeds they expect different
    things of the lookup: the self-contained one returns and passes
    exactly when the address looked up is NULL; the header-based one
    calls the address and, when a function that returns a value is
    there, returns and passes exactly when that value is 434343. *)
Theorem plus1_kallsyms_cases_compared (k : kernel) :
  ((register_kprobe_ret k 0 < 0)%Z ->
   KunitFile.test_longest_symbol_plus1_kallsyms k boot
     = HeaderBased.test_longest_symbol_plus1_kallsyms k boot) /\
  ((0 <= register_kprobe_ret k 0)%Z ->
   verdict (KunitFile.test_longest_symbol_plus1_kallsyms k boot)
           (kallsyms k KunitFile.longest_sym_plus1_literal = 0%Z) /\
   (forall v,
      text k (kallsyms k HeaderBased.longest_sym_plus1_literal)
        = Some (ret v) ->
      verdict (HeaderBased.test_longest_symbol_plus1_kallsyms k boot)
              (v = 434343%Z))).
Proof.
  split.
  - intros R. apply Z.ltb_lt in R.
    rewrite kunit_plus1_kallsyms_run, header_plus1_kallsyms_run.
    cbv zeta. rewrite R. reflexivity.
  - intros R. split.
    + apply kunit_plus1_kallsyms_verdict; exact R.
    + intros v. apply header_plus1_kallsyms_verdict; exact R.
Qed.

(** The theorem with the kprobe refused, and in the kernel in which
    every name resolves. *)
Lemma plus1_kallsyms_cases_compared_witness :
  KunitFile.test_longest_symbol_plus1_kallsyms (kunit_image refused) boot
    = HeaderBased.test_longest_symbol_plus1_kallsyms (kunit_image refused)
        boot /\
  verdict
    (HeaderBased.test_longest_symbol_plus1_kallsyms resolving_all boot)
    (434343 = 434343)%Z.
Proof.
  destruct (plus1_kallsyms_cases_compared (kunit_image refused)) as (F & _).
  destruct (plus1_kallsyms_cases_compared resolving_all) as (_ & G).
  assert (R : (register_kprobe_ret (kunit_image refused) 0 < 0)%Z)
    by reflexivity.
  assert (S : (0 <= register_kprobe_ret resolving_all 0)%Z)
    by (vm_compute; discriminate).
  split; [apply (F R)|].
  apply (G S). vm_compute. reflexivity.
Defined.

(** What is left registered: nothing by
    [check_longest_symbol_exported], from any state. *)
Lemma check_unregisters (k : kernel) (w : world) :
  live_kprobes (snd (Selftest.check_longest_symbol_exported k w))
    = live_kprobes w.
Proof.
  rewrite check_run. cbv zeta.
  destruct (Z.ltb (register_kprobe_ret k (kprobe_calls w)) 0);
    [|destruct (Z.eqb (kallsyms k Selftest.longest_symbol_literal) 0)];
    reflexivity.
Qed.

(** ** The suites in the images of their files *)

(** With the kprobe granted, every case of either suite returns without
    a failure in the image of its own file: the 512 characters of the
    self-contained file do not resolve, and the 22 characters the
    header-based suite looks up do. *)
Example suites_pass_in_their_images :
  map (fun c => (fst (snd c boot), failures (snd (snd c boot))))
      (KunitFile.longest_symbol_test_cases (kunit_image granted))
    = [(Done tt, []); (Done tt, []); (Done tt, []); (Done tt, [])] /\
  map (fun c => (fst (snd c boot), failures (snd (snd c boot))))
      (HeaderBased.longest_symbol_test_cases (header_image granted))
    = [(Done tt, []); (Done tt, []); (Done tt, []); (Done tt, [])] /\
  kallsyms (kunit_image granted) KunitFile.longest_sym_plus1_literal = 0%Z /\
  kallsyms (header_image granted) HeaderBased.longest_sym_plus1_literal
    = 8208%Z /\
  text (header_image granted) 8208%Z
    = Some HeaderBased.LONGEST_SYM_NAME_PLUS1.
Proof.
  repeat split; vm_compute; reflexivity.
Qed.

(** * Further properties *)

Import Effects.

(** ** The cases from any state *)

Ltac run_from :=
  cbv beta iota zeta delta
    [KunitFile.test_longest_symbol KunitFile.test_longest_symbol_kallsyms
     KunitFile.test_longest_symbol_plus1
     KunitFile.test_longest_symbol_plus1_kallsyms
     KunitFile.LONGEST_SYM_NAME KunitFile.LONGEST_SYM_NAME_PLUS1
     HeaderBased.test_longest_symbol HeaderBased.test_longest_symbol_kallsyms
     HeaderBased.test_longest_symbol_plus1
     HeaderBased.test_longest_symbol_plus1_kallsyms
     HeaderBased.LONGEST_SYM_NAME HeaderBased.LONGEST_SYM_NAME_PLUS1
     Selftest.check_longest_symbol_exported Selftest.selftest
     KSTM_CHECK_ZERO
     bind ret register_kprobe unregister_kprobe call_lookup call_int
     pr_info pr_warn kunit_warn emit
     KUNIT_EXPECT_EQ KUNIT_ASSERT_TRUE KUNIT_FAIL record_failure
     kprobe_calls live_kprobes log failures lookups total_tests failed_tests
     symbol_name addr fst snd Nat.pred Nat.add String.append negb].

Section RunsFrom.

Variable k : kernel.
Variable w : world.
Let reg := register_kprobe_ret k.
Let c := kprobe_calls w.

Ltac cases_from :=
  unfold grown, reg, c; destruct w as [c0 lv lg fs ls tt ft]; run_from;
  destruct (Z.ltb (register_kprobe_ret k c0) 0) eqn:R0;
  [ destruct (Z.ltb (register_kprobe_ret k (S c0)) 0) eqn:R1 | ];
  repeat (run_from; rewrite ?Z.eqb_refl;
          repeat match goal with H : _ = _ |- _ => rewrite H end);
  rewrite ?app_nil_r, <- ?app_assoc; reflexivity.

Lemma kunit_plus1_kallsyms_run_from :
  KunitFile.test_longest_symbol_plus1_kallsyms k w =
  let l :=
    [("pr_info",
      "test_longest_symbol_plus1_kallsyms: kprobe not registered\n")] in
  if Z.ltb (reg c) 0 then
    if Z.ltb (reg (S c)) 0 then
      (Done tt,
       grown w 2 0 l
         ["test_longest_symbol kallsysms: kprobe not registered\n"] [])
    else (Aborted, grown w 2 1 l ["register_kprobe(&kp) < 0"] [])
  else
    KUNIT_EXPECT_EQ 0 (kallsyms k KunitFile.longest_sym_plus1_literal)
      "NULL == longest_sym_plus1"
      (grown w 1 0
         [("kunit_warn",
           "test_longest_symbol_plus1 kallsyms: kprobe registered\n")]
         [] [KunitFile.longest_sym_plus1_literal]).
Proof. cases_from. Qed.

Lemma kunit_kallsyms_run_from :
  KunitFile.test_longest_symbol_kallsyms k w =
  let l :=
    [("pr_info", "test_longest_symbol_kallsyms: kprobe not registered\n");
     ("kunit_warn", "test_longest_symbol kallsyms: kprobe not registered\n")]
  in
  if Z.ltb (reg c) 0 then
    if Z.ltb (reg (S c)) 0 then
      (Done tt,
       grown w 2 0 l
         ["test_longest_symbol kallsysms: kprobe not registered\n"] [])
    else (Aborted, grown w 2 1 l ["register_kprobe(&kp) < 0"] [])
  else
    (v <- call_int k (kallsyms k KunitFile.longest_sym_literal) ;;
     KUNIT_EXPECT_EQ 424242 v "424242 == longest_sym()")
      (grown w 1 0
         [("kunit_warn", "test_longest_symbol kallsyms: kprobe registered\n")]
         [] [KunitFile.longest_sym_literal]).
Proof. cases_from. Qed.

Lemma header_kallsyms_run_from :
  HeaderBased.test_longest_symbol_kallsyms k w =
  let l :=
    [("pr_info", "test_longest_symbol_kallsyms: kprobe not registered\n");
     ("kunit_warn", "test_longest_symbol kallsyms: kprobe not registered\n")]
  in
  if Z.ltb (reg c) 0 then
    if Z.ltb (reg (S c)) 0 then
      (Done tt,
       grown w 2 0 l
         ["test_longest_symbol kallsysms: kprobe not registered\n"] [])
    else (Aborted, grown w 2 1 l ["register_kprobe(&kp) < 0"] [])
  else
    (v <- call_int k (kallsyms k HeaderBased.longest_sym_literal) ;;
     KUNIT_EXPECT_EQ 424242 v "424242 == longest_sym()")
      (grown w 1 0
         [("kunit_warn", "test_longest_symbol kallsyms: kprobe registered\n")]
         [] [HeaderBased.longest_sym_literal]).
Proof. cases_from. Qed.

Lemma header_plus1_kallsyms_run_from :
  HeaderBased.test_longest_symbol_plus1_kallsyms k w =
  let l :=
    [("pr_info",
      "test_longest_symbol_plus1_kallsyms: kprobe not registered\n")] in
  if Z.ltb (reg c) 0 then
    if Z.ltb (reg (S c)) 0 then
      (Done tt,
       grown w 2 0 l
         ["test_longest_symbol kallsysms: kprobe not registered\n"] [])
    else (Aborted, grown w 2 1 l ["register_kprobe(&kp) < 0"] [])
  else
    (v <- call_int k (kallsyms k HeaderBased.longest_sym_plus1_literal) ;;
     KUNIT_EXPECT_EQ 434343 v "434343 == longest_sym_plus1()")
      (grown w 1 0 [] [] [HeaderBased.longest_sym_plus1_literal]).
Proof. cases_from. Qed.

End RunsFrom.

(** ** The two suites compared *)

Lemma literals_agree :
  HeaderBased.longest_sym_literal = KunitFile.longest_sym_literal.
Proof. vm_compute. reflexivity. Qed.

(** X1. Three of the four cases are the same in the two files: for
    every kernel and from every state, [test_longest_symbol],
    [test_longest_symbol_kallsyms] and [test_longest_symbol_plus1] of the
    self-contained file and of the header-based one end the same way in
    the same state, log included. *)
Theorem cases_agree_across_files (k : kernel) (w : world) :
  KunitFile.test_longest_symbol w = HeaderBased.test_longest_symbol w /\
  KunitFile.test_longest_symbol_kallsyms k w
    = HeaderBased.test_longest_symbol_kallsyms k w /\
  KunitFile.test_longest_symbol_plus1 w
    = HeaderBased.test_longest_symbol_plus1 w.
Proof.
  split; [reflexivity|]. split; [|reflexivity].
  rewrite kunit_kallsyms_run_from, header_kallsyms_run_from.
  rewrite literals_agree. reflexivity.
Qed.

(** ** [check_longest_symbol_exported] and [selftest] from any state *)

(** X2. From any state and in any kernel,
    [check_longest_symbol_exported] returns, with 0 or 1; it calls
    [register_kprobe] exactly once and leaves as many kprobes registered
    as it found; it looks up the stringified [LONGEST_SYMBOL], once,
    exactly when the registration succeeded; it prints one message, and
    touches neither the KUnit failures nor the counters of the
    selftest. *)
Theorem check_effects (k : kernel) (w : world) :
  let r := Selftest.check_longest_symbol_exported k w in
  let granted := (0 <= register_kprobe_ret k (kprobe_calls w))%Z in
  (fst r = Done 0%Z \/ fst r = Done 1%Z) /\
  kprobe_calls (snd r) = S (kprobe_calls w) /\
  live_kprobes (snd r) = live_kprobes w /\
  (granted ->
   lookups (snd r) = lookups w ++ [Selftest.longest_symbol_literal]) /\
  (~ granted -> lookups (snd r) = lookups w) /\
  (exists msg, log (snd r) = log w ++ [("pr_info", msg)]) /\
  failures (snd r) = failures w /\
  total_tests (snd r) = total_tests w /\
  failed_tests (snd r) = failed_tests w.
Proof.
  cbv zeta. rewrite check_run. cbv zeta.
  destruct (Z.ltb_spec (register_kprobe_ret k (kprobe_calls w)) 0) as [R|R];
    [|destruct (Z.eqb (kallsyms k Selftest.longest_symbol_literal) 0)];
    cbn [fst snd kprobe_calls live_kprobes log failures lookups
         total_tests failed_tests];
    repeat split; auto; try (intros; lia); try (eexists; reflexivity).
Qed.

(** The theorem in a kernel that grants the kprobe and resolves the
    name, from the first state. *)
Lemma check_effects_witness :
  lookups (snd (Selftest.check_longest_symbol_exported resolving_all boot))
    = [Selftest.longest_symbol_literal] /\
  lookups
    (snd (Selftest.check_longest_symbol_exported (without_symbols refused)
            boot)) = [].
Proof.
  destruct (check_effects resolving_all boot)
    as (_ & _ & _ & G & _).
  destruct (check_effects (without_symbols refused) boot)
    as (_ & _ & _ & _ & N & _).
  split.
  - apply G. vm_compute. discriminate.
  - apply N. intros L. vm_compute in L. apply L. reflexivity.
Defined.

Lemma uint_succ_small (n : nat) :
  (Z.of_nat n < 4294967295)%Z -> uint_succ n = S n.
Proof.
  intros H. unfold uint_succ. rewrite Z.mod_small by lia. lia.
Qed.

Lemma uint_succ_max (n : nat) :
  Z.of_nat n = 4294967295%Z -> uint_succ n = 0.
Proof.
  intros H. unfold uint_succ. rewrite H. reflexivity.
Qed.

(** X3. [selftest] keeps the counters of the module consistent as long
    as they do not wrap: from a state with no more failed tests than
    tests and fewer than [UINT_MAX] tests, in any kernel and with or
    without [CONFIG_KPROBES], it returns in a state with no more failed
    tests than tests.  It counts one test more under [CONFIG_KPROBES]
    and none without, one failed test more exactly when the check did
    not find the symbol, and leaves as many kprobes registered as it
    found; without [CONFIG_KPROBES] it neither registers a kprobe nor
    looks anything up.  From [UINT_MAX] tests, under [CONFIG_KPROBES],
    the count of tests wraps to 0. *)
Theorem selftest_counters (k : kernel) (config_kprobes : bool) (w : world) :
  let r := Selftest.selftest k config_kprobes w in
  let found :=
    (0 <= register_kprobe_ret k (kprobe_calls w))%Z /\
    kallsyms k Selftest.longest_symbol_literal <> 0%Z in
  (failed_tests w <= total_tests w ->
   (Z.of_nat (total_tests w) < 4294967295)%Z ->
   fst r = Done tt /\
   failed_tests (snd r) <= total_tests (snd r) /\
   total_tests (snd r)
     = (if config_kprobes then 1 else 0) + total_tests w /\
   live_kprobes (snd r) = live_kprobes w /\
   (config_kprobes = true ->
    (found -> failed_tests (snd r) = failed_tests w) /\
    (~ found -> failed_tests (snd r) = S (failed_tests w))) /\
   (config_kprobes = false ->
    failed_tests (snd r) = failed_tests w /\
    kprobe_calls (snd r) = kprobe_calls w /\
    lookups (snd r) = lookups w)) /\
  (Z.of_nat (total_tests w) = 4294967295%Z ->
   config_kprobes = true ->
   fst r = Done tt /\ total_tests (snd r) = 0 /\
   (found -> failed_tests (snd r) = failed_tests w)).
Proof.
  cbv zeta. destruct w as [c0 lv lg fs ls tt ft].
  cbn [failed_tests total_tests kprobe_calls].
  split.
  - intros I B.
    assert (Bt : uint_succ tt = S tt) by (apply uint_succ_small; lia).
    assert (Bf : uint_succ ft = S ft) by (apply uint_succ_small; lia).
    destruct config_kprobes; run_from.
    + destruct (Z.ltb (register_kprobe_ret k c0) 0) eqn:R;
        repeat (run_from; rewrite ?R, ?Z.eqb_refl;
                change (Z.eqb 1 0) with false);
        [apply Z.ltb_lt in R | apply Z.ltb_ge in R].
      * rewrite Bt, Bf. split; [reflexivity|].
        repeat split; intros; try lia; try discriminate; intuition lia.
      * destruct (Z.eqb_spec (kallsyms k Selftest.longest_symbol_literal) 0)
          as [E|E];
          repeat (run_from; change (Z.eqb 1 0) with false;
                  change (Z.eqb 0 0) with true);
          rewrite ?Bt, ?Bf;
          (split; [reflexivity|]); repeat split; intros;
          try lia; try discriminate; intuition congruence.
    + split; [reflexivity|]. repeat split; intros; try lia; discriminate.
  - intros B ->.
    assert (Bt : uint_succ tt = 0) by (apply uint_succ_max; exact B).
    run_from.
    destruct (Z.ltb (register_kprobe_ret k c0) 0) eqn:R;
      repeat (run_from; rewrite ?R, ?Z.eqb_refl;
              change (Z.eqb 1 0) with false);
      [apply Z.ltb_lt in R | apply Z.ltb_ge in R].
    + rewrite Bt. repeat split. intros [G _]. lia.
    + destruct (Z.eqb_spec (kallsyms k Selftest.longest_symbol_literal) 0)
        as [E|E];
        repeat (run_from; change (Z.eqb 1 0) with false;
                change (Z.eqb 0 0) with true);
        rewrite ?Bt; repeat split.
      intros [_ N]. contradiction.
Qed.

(** The theorem from the first state, with [CONFIG_KPROBES], in a kernel
    that resolves the name and in one that refuses the kprobe, and from
    a state that has counted [UINT_MAX] tests. *)
Lemma selftest_counters_witness :
  failed_tests (snd (Selftest.selftest resolving_all true boot)) = 0 /\
  failed_tests
    (snd (Selftest.selftest (without_symbols refused) true boot)) = 1 /\
  total_tests
    (snd (Selftest.selftest resolving_all true
            (World 0 0 [] [] [] (Z.to_nat 4294967295) 0))) = 0.
Proof.
  assert (I : failed_tests boot <= total_tests boot) by (simpl; lia).
  assert (B : (Z.of_nat (total_tests boot) < 4294967295)%Z)
    by (simpl; lia).
  destruct (selftest_counters resolving_all true boot) as (P & _).
  destruct (P I B) as (_ & _ & _ & _ & A & _).
  destruct (selftest_counters (without_symbols refused) true boot)
    as (Q & _).
  destruct (Q I B) as (_ & _ & _ & _ & C & _).
  pose proof (selftest_counters resolving_all true
                (World 0 0 [] [] [] (Z.to_nat 4294967295) 0)) as W.
  cbv zeta in W. apply proj2 in W.
  assert (U : Z.of_nat
                (total_tests (World 0 0 [] [] [] (Z.to_nat 4294967295) 0))
              = 4294967295%Z)
    by (cbn [total_tests]; apply Z2Nat.id; lia).
  specialize (W U eq_refl). destruct W as (_ & W & _).
  split; [|split].
  - apply (proj1 (A eq_refl)). split; vm_compute; discriminate.
  - apply (proj2 (C eq_refl)). intros [L _]. vm_compute in L.
    apply L. reflexivity.
  - exact W.
Defined.

(** ** The cases that register a kprobe, from any state *)

Lemma grown_by_one {A} (l : list A) (x : A) : l ++ [x] <> l.
Proof.
  intros E. apply (f_equal (@length A)) in E.
  rewrite length_app in E. simpl in E. lia.
Qed.

Lemma expectation_from (w w0 : world) (name : string)
    (expected v : Z) (what : string) :
  kprobe_calls w0 = S (kprobe_calls w) ->
  live_kprobes w0 = live_kprobes w ->
  lookups w0 = lookups w ++ [name] ->
  failures w0 = failures w ->
  let r := KUNIT_EXPECT_EQ expected v what w0 in
  fst r = Done tt /\ (failures (snd r) = failures w <-> v = expected) /\
  after_granted w name r.
Proof.
  intros C L N F. unfold KUNIT_EXPECT_EQ, after_granted.
  destruct (Z.eqb_spec expected v) as [E|E];
    cbn [fst snd record_failure kprobe_calls live_kprobes lookups failures].
  - repeat split; auto.
  - rewrite F. repeat split; auto.
    + intros G. exfalso. exact (grown_by_one _ _ G).
    + intros G. congruence.
Qed.

Lemma refused_twice (k : kernel) (w : world) (l : list (string * string))
    (msg : string) (o : outcome unit) (live : nat) :
  (if Z.ltb (register_kprobe_ret k (S (kprobe_calls w))) 0
   then o = Done tt /\ live = 0 else o = Aborted /\ live = 1) ->
  after_refused k w (o, grown w 2 live l [msg] []).
Proof.
  intros H. unfold after_refused, grown.
  cbn [fst snd kprobe_calls live_kprobes lookups failures].
  destruct (Z.ltb_spec (register_kprobe_ret k (S (kprobe_calls w))) 0)
    as [R|R]; destruct H as [-> ->];
    repeat split; try lia; try (eexists; reflexivity);
    try apply app_nil_r; intros; lia.
Qed.

Section Effects.

Variable k : kernel.
Variable w : world.

Ltac refused_branch :=
  intros R; apply Z.ltb_lt in R; rewrite R;
  let X := fresh in
  destruct (Z.ltb (register_kprobe_ret k (S (kprobe_calls w))) 0) eqn:X;
  apply refused_twice; rewrite X; split; reflexivity.

Ltac faulted_branch :=
  intros R T; apply Z.ltb_ge in R; rewrite R;
  unfold call_int, bind; rewrite T;
  unfold after_granted, grown;
  cbn [fst snd kprobe_calls live_kprobes lookups failures];
  repeat split; auto using app_nil_r.

Ltac returned_branch :=
  intros R v T; apply Z.ltb_ge in R; rewrite R;
  unfold call_int, bind, ret; rewrite T;
  apply expectation_from; unfold grown;
  cbn [kprobe_calls live_kprobes lookups failures];
  auto using app_nil_r.

(** X5. The three cases that call the address they looked up, in any
    kernel and from any state.  When the first [register_kprobe] fails
    they call it once more, look nothing up and record one failure; the
    kprobe of the second call stays registered when that call succeeds.
    When the kprobe is granted they unregister it and look their name
    up, once; if no function is at the address found, the call faults
    with no failure recorded; if a function that returns a value is
    there, the case returns, with a failure recorded exactly when the
    value is not the expected one. *)
Theorem calling_cases_effects :
  calling_case k w (KunitFile.test_longest_symbol_kallsyms k)
    KunitFile.longest_sym_literal 424242 /\
  calling_case k w (HeaderBased.test_longest_symbol_kallsyms k)
    HeaderBased.longest_sym_literal 424242 /\
  calling_case k w (HeaderBased.test_longest_symbol_plus1_kallsyms k)
    HeaderBased.longest_sym_plus1_literal 434343.
Proof.
  unfold calling_case. cbv zeta.
  rewrite kunit_kallsyms_run_from, header_kallsyms_run_from,
    header_plus1_kallsyms_run_from.
  cbv zeta.
  repeat match goal with |- _ /\ _ => split end;
    first [refused_branch | faulted_branch | returned_branch].
Qed.

End Effects.

(** The theorem from the first state: in the image of the
    self-contained file the call returns 424242 and nothing is
    recorded; in an image without the symbol the call faults. *)
Lemma calling_cases_effects_witness :
  fst (KunitFile.test_longest_symbol_kallsyms (kunit_image granted) boot)
    = Done tt /\
  fst (KunitFile.test_longest_symbol_kallsyms (without_symbols granted) boot)
    = Faulted /\
  kprobe_calls
    (snd (KunitFile.test_longest_symbol_kallsyms (kunit_image refused) boot))
    = 2.
Proof.
  destruct (calling_cases_effects (kunit_image granted) boot)
    as ((_ & _ & A) & _).
  destruct (calling_cases_effects (without_symbols granted) boot)
    as ((_ & B & _) & _).
  destruct (calling_cases_effects (kunit_image refused) boot)
    as ((C & _ & _) & _).
  split; [|split].
  - apply (A ltac:(vm_compute; discriminate) 424242%Z).
    vm_compute. reflexivity.
  - apply B; [vm_compute; discriminate | vm_compute; reflexivity].
  - apply C. reflexivity.
Defined.

(** X4. The self-contained [test_longest_symbol_plus1_kallsyms], in any
    kernel and from any state, never calls the address it looks up and
    never faults.  When the kprobe is granted it unregisters it, looks
    the name up once and returns, with a failure recorded exactly when
    the address found is not NULL; when the first [register_kprobe]
    fails it calls it once more, looks nothing up and records one
    failure. *)
Theorem kunit_plus1_kallsyms_effects (k : kernel) (w : world) :
  let r := KunitFile.test_longest_symbol_plus1_kallsyms k w in
  let c := kprobe_calls w in
  fst r <> Faulted /\
  ((register_kprobe_ret k c < 0)%Z -> after_refused k w r) /\
  ((0 <= register_kprobe_ret k c)%Z ->
   fst r = Done tt /\
   (failures (snd r) = failures w <->
    kallsyms k KunitFile.longest_sym_plus1_literal = 0%Z) /\
   after_granted w KunitFile.longest_sym_plus1_literal r).
Proof.
  cbv zeta. rewrite kunit_plus1_kallsyms_run_from. cbv zeta.
  split; [|split].
  - destruct (Z.ltb (register_kprobe_ret k (kprobe_calls w)) 0);
      [destruct (Z.ltb (register_kprobe_ret k (S (kprobe_calls w))) 0)|];
      try discriminate.
    unfold KUNIT_EXPECT_EQ.
    destruct (Z.eqb 0 (kallsyms k KunitFile.longest_sym_plus1_literal));
      discriminate.
  - intros R. apply Z.ltb_lt in R. rewrite R.
    destruct (Z.ltb (register_kprobe_ret k (S (kprobe_calls w))) 0) eqn:X;
      apply refused_twice; rewrite X; split; reflexivity.
  - intros R. apply Z.ltb_ge in R. rewrite R.
    apply expectation_from; unfold grown;
      cbn [kprobe_calls live_kprobes lookups failures];
      auto using app_nil_r.
Qed.

(** The theorem from the first state, in the image of the file: the
    name, one character past the limit, does not resolve and the case
    passes. *)
Lemma kunit_plus1_kallsyms_effects_witness :
  fst (KunitFile.test_longest_symbol_plus1_kallsyms (kunit_image granted)
         boot) = Done tt /\
  failures
    (snd (KunitFile.test_longest_symbol_plus1_kallsyms (kunit_image granted)
            boot)) = [] /\
  kprobe_calls
    (snd (KunitFile.test_longest_symbol_plus1_kallsyms (kunit_image refused)
            boot)) = 2.
Proof.
  destruct (kunit_plus1_kallsyms_effects (kunit_image granted) boot)
    as (_ & _ & A).
  destruct (kunit_plus1_kallsyms_effects (kunit_image refused) boot)
    as (_ & B & _).
  destruct (A ltac:(vm_compute; discriminate)) as (D & F & _).
  split; [exact D|]. split.
  - apply F. vm_compute. reflexivity.
  - apply B. reflexivity.
Defined.

(** ** More on the chain *)

Lemma preprocess_replace_with (tbl : list macro) (ts : list token) :
  preprocess tbl ts = replace_with tbl fuel0 ts.
Proof.
  unfold preprocess, replace_with.
  destruct (expand tbl fuel0 (map (fun t => (t, [])) ts)); reflexivity.
Qed.

(** X6. The macros of the chain do not nest: a call of one of them whose
    argument is itself a call, [DI(m(x))] for any identifiers [m] and
    [x], has no replacement, with whatever fuel, in either file.  The
    argument is an operand of [##] and goes in as written, so that its
    closing parenthesis would have to be pasted with the identifier that
    starts its second copy. *)
Theorem chain_calls_do_not_nest (m x : string) (fuel : nat) :
  Forall (fun tbl =>
    Forall (fun d =>
      replace_with tbl fuel
        [Id d; LParen; Id m; LParen; Id x; RParen; RParen] = None)
      chain_names) files.
Proof.
  unfold files, chain_names.
  repeat constructor; destruct fuel as [|fuel]; reflexivity.
Qed.

(** X7. The number of arguments.  With two arguments a call of a macro
    of the chain has no replacement, with whatever fuel.  With an empty
    argument it is replaced as the empty spelling would be: [DI()] is
    [s], and [DDDDDI()] an identifier of 31 characters. *)
Theorem chain_arguments (a b : string) (fuel : nat) :
  Forall (fun tbl =>
    Forall (fun d =>
      replace_with tbl fuel [Id d; LParen; Id a; Comma; Id b; RParen]
        = None) chain_names /\
    preprocess tbl [Id "DI"; LParen; RParen] = Some [Id "s"] /\
    preprocess tbl [Id "DDDDDI"; LParen; RParen]
      = Some [Id (Chain.DDDDDI "")] /\
    String.length (Chain.DDDDDI "") = 31) files.
Proof.
  unfold files, chain_names.
  repeat constructor; try (destruct fuel as [|fuel]; reflexivity);
    vm_compute; reflexivity.
Qed.

Lemma all_chars_append (p : ascii -> bool) (a b : string) :
  all_chars p (a ++ b)%string = all_chars p a && all_chars p b.
Proof.
  induction a as [|c a IH]; simpl; [reflexivity|].
  rewrite IH. apply andb_assoc.
Qed.

Lemma identifier_chain (name : string) :
  all_chars ident_char name = true ->
  is_identifier (Chain.DI name) = true /\
  is_identifier (Chain.DDI name) = true /\
  is_identifier (Chain.DDDI name) = true /\
  is_identifier (Chain.DDDDI name) = true /\
  is_identifier (Chain.DDDDDI name) = true.
Proof.
  intros H.
  unfold Chain.DDDDDI, Chain.DDDDI, Chain.DDDI, Chain.DDI, Chain.DI.
  repeat split;
    repeat (cbn [String.append is_identifier all_chars];
            rewrite ?all_chars_append, ?H);
    reflexivity.
Qed.

(** X8. What the chain pastes together is an identifier again: for a
    name made of letters, digits and underscores, each macro of the
    chain, in either file, is replaced by one token whose spelling
    starts with a letter and goes on with letters, digits and
    underscores.  The name need not start with a letter itself, since
    [s] is put before it. *)
Theorem chain_gives_identifiers (name : string) :
  all_chars ident_char name = true ->
  Forall (fun tbl =>
    Forall (fun d =>
      exists r, preprocess tbl (Chain.call d name) = Some [Id r] /\
                is_identifier r = true) chain_names) files.
Proof.
  intros H.
  destruct (identifier_chain name H) as (i1 & i2 & i3 & i4 & i5).
  destruct (chain_expands name longest_symbol_h (or_introl eq_refl))
    as (h1 & h2 & h3 & h4 & h5).
  destruct (chain_expands name longest_symbol_kunit_c (or_intror eq_refl))
    as (k1 & k2 & k3 & k4 & k5).
  unfold files, chain_names.
  repeat constructor; eexists; split; eassumption.
Qed.

(** The theorem for the seed of the sources. *)
Lemma chain_gives_identifiers_witness :
  exists r, preprocess longest_symbol_kunit_c (Chain.call "DDDDDI" seed)
              = Some [Id r] /\ is_identifier r = true.
Proof.
  assert (H : all_chars ident_char seed = true) by reflexivity.
  pose proof (chain_gives_identifiers seed H) as F.
  apply Forall_inv_tail, Forall_inv in F.
  do 4 apply Forall_inv_tail in F. apply Forall_inv in F. exact F.
Defined.

Lemma append_same_length (a b x y : string) :
  String.length a = String.length b ->
  (a ++ x)%string = (b ++ y)%string -> a = b /\ x = y.
Proof.
  revert b. induction a as [|c a IH]; intros [|d b] L E;
    simpl in L, E; try discriminate.
  - split; [reflexivity | exact E].
  - injection E as -> E. injection L as L.
    destruct (IH b L E) as [-> ->]. split; reflexivity.
Qed.

Lemma doubled_injective (a b : string) :
  (a ++ a)%string = (b ++ b)%string -> a = b.
Proof.
  intros E.
  assert (L : String.length a = String.length b).
  { apply (f_equal String.length) in E.
    rewrite !length_append in E. lia. }
  exact (proj1 (append_same_length a b a b L E)).
Qed.

Lemma DI_injective (a b : string) : Chain.DI a = Chain.DI b -> a = b.
Proof.
  unfold Chain.DI. cbn [String.append]. intros E.
  injection E as E. exact (doubled_injective a b E).
Qed.

Lemma chain_functions_injective (a b : string) :
  (Chain.DI a = Chain.DI b -> a = b) /\
  (Chain.DDI a = Chain.DDI b -> a = b) /\
  (Chain.DDDI a = Chain.DDDI b -> a = b) /\
  (Chain.DDDDI a = Chain.DDDDI b -> a = b) /\
  (Chain.DDDDDI a = Chain.DDDDDI b -> a = b).
Proof.
  assert (N : forall x y : string,
             ("n" ++ x ++ x)%string = ("n" ++ y ++ y)%string -> x = y).
  { intros x y E. cbn [String.append] in E. injection E as E.
    exact (doubled_injective x y E). }
  unfold Chain.DDDDDI, Chain.DDDDI, Chain.DDDI, Chain.DDI.
  repeat split; intros E;
    repeat (apply DI_injective in E || apply N in E); exact E.
Qed.

(** X9. Different names give different symbols: for two identifiers
    that differ, each macro of the chain, in either file, is replaced
    by two identifiers that differ. *)
Theorem chain_injective (a b : string) :
  a <> b ->
  Forall (fun tbl =>
    Forall (fun d =>
      exists ra rb,
        preprocess tbl (Chain.call d a) = Some [Id ra] /\
        preprocess tbl (Chain.call d b) = Some [Id rb] /\
        ra <> rb) chain_names) files.
Proof.
  intros D.
  destruct (chain_functions_injective a b) as (i1 & i2 & i3 & i4 & i5).
  assert (I : forall tbl,
             tbl = longest_symbol_h \/ tbl = longest_symbol_kunit_c ->
             Forall (fun d =>
               exists ra rb,
                 preprocess tbl (Chain.call d a) = Some [Id ra] /\
                 preprocess tbl (Chain.call d b) = Some [Id rb] /\
                 ra <> rb) chain_names).
  { intros tbl T.
    destruct (chain_expands a tbl T) as (a1 & a2 & a3 & a4 & a5).
    destruct (chain_expands b tbl T) as (b1 & b2 & b3 & b4 & b5).
    unfold chain_names.
    repeat (apply Forall_cons || apply Forall_nil);
      do 2 eexists; (split; [eassumption|]); (split; [eassumption|]);
      intros E; apply D; auto. }
  unfold files.
  apply Forall_cons; [apply I; auto|].
  apply Forall_cons; [apply I; auto|]. apply Forall_nil.
Qed.

(** The theorem for the seed of the sources and the seed cut by its last
    character. *)
Lemma chain_injective_witness :
  exists ra rb,
    preprocess longest_symbol_h (Chain.call "DDDDDI" seed) = Some [Id ra] /\
    preprocess longest_symbol_h (Chain.call "DDDDDI" "g1h2i3j4k5l6m7")
      = Some [Id rb] /\
    ra <> rb.
Proof.
  assert (D : seed <> "g1h2i3j4k5l6m7") by discriminate.
  pose proof (chain_injective seed "g1h2i3j4k5l6m7" D) as F.
  apply Forall_inv in F. do 4 apply Forall_inv_tail in F.
  apply Forall_inv in F. exact F.
Defined.

(** ** [PLUS1] on any identifier *)

Section Steps.

Variable tbl : list macro.



End Steps.










(** ** The three [_Static_assert]s together *)

(** X11. No value of [KSYM_NAME_LEN] satisfies the [_Static_assert] of
    the selftest module together with the one of the KUnit file or of
    the header-based suite: the first wants [KSYM_NAME_LEN] to be the
    [strlen] of a name of 127 characters, the others the [sizeof] of the
    stringified name of 511.  With the value the KUnit files are written
    for, the condition of the selftest module is false. *)
Theorem static_asserts_exclude (n : Z) :
  ~ (Selftest.static_assert n = true /\ KunitFile.static_assert n = true) /\
  ~ (Selftest.static_assert n = true /\
     HeaderBased.static_assert n = true) /\
  (KunitFile.static_assert n = HeaderBased.static_assert n) /\
  Selftest.static_assert KSYM_NAME_LEN = false.
Proof.
  assert (H : HeaderBased.static_assert n = KunitFile.static_assert n).
  { unfold HeaderBased.static_assert, KunitFile.static_assert.
    rewrite literals_agree. reflexivity. }
  assert (X : ~ (Selftest.static_assert n = true /\
                 KunitFile.static_assert n = true)).
  { unfold Selftest.static_assert, KunitFile.static_assert.
    rewrite selftest_literal_strlen, kunit_literal_sizeof, !Z.eqb_eq.
    intros [A B]. lia. }
  split; [exact X|]. split; [rewrite H; exact X|].
  split; [symmetry; exact H|].
  vm_compute. reflexivity.
Qed.

(** ** Kprobes registered and unregistered *)

Lemma called_paired (k : kernel) (w w0 : world) (a expected : Z)
    (what : string) :
  leaves_kprobes k ->
  live_kprobes w0 = live_kprobes w ->
  paired w ((v <- call_int k a ;; KUNIT_EXPECT_EQ expected v what) w0).
Proof.
  intros F L. unfold paired, call_int, bind.
  destruct (text k a) as [f|] eqn:T; [|exact L].
  pose proof (F a f w0 T) as P.
  destruct (f w0) as [[v| |] w1]; cbn [snd] in P |- *;
    try (rewrite P; exact L).
  unfold KUNIT_EXPECT_EQ. destruct (Z.eqb expected v);
    cbn [snd record_failure live_kprobes]; rewrite P; exact L.
Qed.

Lemma selftest_paired (k : kernel) (config_kprobes : bool) (w : world) :
  paired w (Selftest.selftest k config_kprobes w).
Proof.
  unfold paired. destruct w as [c0 lv lg fs ls tt ft].
  destruct config_kprobes; run_from; [|reflexivity].
  destruct (Z.ltb (register_kprobe_ret k c0) 0) eqn:R;
    repeat (run_from; rewrite ?R, ?Z.eqb_refl;
            change (Z.eqb 1 0) with false); [reflexivity|].
  destruct (Z.eqb (kallsyms k Selftest.longest_symbol_literal) 0);
    repeat (run_from; change (Z.eqb 1 0) with false;
            change (Z.eqb 0 0) with true); reflexivity.
Qed.

Section Pairing.

Variable k : kernel.
Variable w : world.
Hypothesis retry : retry_refused k w.
Hypothesis frame : leaves_kprobes k.

Ltac refused_case :=
  let R := fresh "R" in
  intros R; pose proof (retry R) as R';
  apply Z.ltb_lt in R; apply Z.ltb_lt in R'; rewrite R, R'.

Ltac paired_case :=
  let R := fresh "R" in
  unfold paired;
  destruct (Z.ltb_spec (register_kprobe_ret k (kprobe_calls w)) 0)
    as [R|R];
  [ pose proof (retry R) as R'; apply Z.ltb_lt in R';
    rewrite R'; reflexivity
  | try (apply called_paired; [exact frame | reflexivity]) ].

(** C8. In any kernel in which a registration that failed is refused
    again when it is repeated, and from any state, every entry point
    leaves as many kprobes registered as it found: the four cases that
    register a kprobe in either file, which unregister it before the
    lookup when it is granted and return with nothing registered when
    it is refused, the four cases that register none,
    [check_longest_symbol_exported] and [selftest].  The functions
    called through the addresses looked up are taken to leave the
    kprobes alone. *)
Theorem kprobes_paired :
  paired w (KunitFile.test_longest_symbol_kallsyms k w) /\
  paired w (KunitFile.test_longest_symbol_plus1_kallsyms k w) /\
  paired w (HeaderBased.test_longest_symbol_kallsyms k w) /\
  paired w (HeaderBased.test_longest_symbol_plus1_kallsyms k w) /\
  ((register_kprobe_ret k (kprobe_calls w) < 0)%Z ->
   fst (KunitFile.test_longest_symbol_kallsyms k w) = Done tt /\
   fst (KunitFile.test_longest_symbol_plus1_kallsyms k w) = Done tt /\
   fst (HeaderBased.test_longest_symbol_kallsyms k w) = Done tt /\
   fst (HeaderBased.test_longest_symbol_plus1_kallsyms k w) = Done tt) /\
  paired w (KunitFile.test_longest_symbol w) /\
  paired w (KunitFile.test_longest_symbol_plus1 w) /\
  paired w (HeaderBased.test_longest_symbol w) /\
  paired w (HeaderBased.test_longest_symbol_plus1 w) /\
  paired w (Selftest.check_longest_symbol_exported k w) /\
  paired w (Selftest.selftest k true w) /\
  paired w (Selftest.selftest k false w).
Proof.
  rewrite kunit_kallsyms_run_from, kunit_plus1_kallsyms_run_from,
    header_kallsyms_run_from, header_plus1_kallsyms_run_from.
  cbv zeta.
  split; [paired_case|]. split; [paired_case|].
  2: split; [paired_case|]. 2: split; [paired_case|].
  - unfold KUNIT_EXPECT_EQ.
    destruct (Z.eqb 0 (kallsyms k KunitFile.longest_sym_plus1_literal));
      reflexivity.
  - split; [refused_case; repeat split|].
    repeat split; try reflexivity.
    + apply check_unregisters.
    + apply selftest_paired.
Qed.

End Pairing.

(** The functions of the two images return a constant. *)
Lemma images_leave_kprobes (reg : nat -> Z) :
  leaves_kprobes (kunit_image reg) /\ leaves_kprobes (header_image reg).
Proof.
  split; intros a f w0 T;
    unfold kunit_image, header_image, link in T;
    cbn [text place function_at KunitFile.functions HeaderBased.functions
         f_body] in T;
    repeat match type of T with
           | (if ?c then _ else _) = _ =>
               destruct c; [injection T as <-; reflexivity|]
           end;
    discriminate.
Qed.

(** The theorem from the first state in the image of the self-contained
    file, with the kprobe refused at every call and with the kprobe
    granted. *)
Lemma kprobes_paired_witness :
  live_kprobes
    (snd (KunitFile.test_longest_symbol_kallsyms (kunit_image refused) boot))
    = 0 /\
  fst (KunitFile.test_longest_symbol_kallsyms (kunit_image refused) boot)
    = Done tt /\
  live_kprobes
    (snd (KunitFile.test_longest_symbol_kallsyms (kunit_image granted) boot))
    = 0.
Proof.
  assert (R : retry_refused (kunit_image refused) boot)
    by (intros _; reflexivity).
  assert (G : retry_refused (kunit_image granted) boot)
    by (intros L; vm_compute in L; discriminate).
  destruct (kprobes_paired (kunit_image refused) boot R
              (proj1 (images_leave_kprobes refused)))
    as (A & _ & _ & _ & B & _).
  destruct (kprobes_paired (kunit_image granted) boot G
              (proj1 (images_leave_kprobes granted))) as (C & _).
  split; [exact A|]. split; [|exact C].
  apply B. reflexivity.
Defined.
